(** * Build watcher: the producer / worker / supervisor pipeline of [app.py]

    A shallow embedding of [app.py] (thoth build-watcher) and the
    properties of its pipeline: the event filter of [_event_producer],
    the relocation command and its redacted log line in [_push_image],
    the submission of [_do_analyze_image], the fault isolation of the
    [_submitter] loop, and the start-up sequence and liveness poll of
    [cli].

    Python strings are [string]; an argument annotated [str = None] is an
    [option string]; the work queue is a FIFO [list string]; calls that
    leave the program ([run_command], [image_analysis], [OpenShift()],
    [Process.is_alive]) are answered by an environment given as Section
    variables; log calls and external calls are recorded in a trace. *)

From Stdlib Require Import String Ascii List Bool Arith ZArith Lia Permutation.
From Equations Require Import Equations.
Import ListNotations.

Local Open Scope list_scope.
Local Open Scope string_scope.

(** ** Python string operations used by the program *)

Module PyStr.

(** Truth value of an [Optional[str]]: [None] and the empty string are
    falsy. *)
Definition truthy (o : option string) : bool :=
  match o with
  | Some s => negb (s =? "")
  | None => false
  end.

(** [s.startswith(p)]. *)
Fixpoint startswith (p s : string) : bool :=
  match p, s with
  | EmptyString, _ => true
  | String a p', String b s' => Ascii.eqb a b && startswith p' s'
  | String _ _, EmptyString => false
  end.

(** [p in s]: some suffix of [s] starts with [p]. *)
Fixpoint contains (p s : string) : bool :=
  startswith p s ||
  match s with
  | EmptyString => false
  | String _ s' => contains p s'
  end.

(** [s[n:]]. *)
Fixpoint drop (n : nat) (s : string) : string :=
  match n, s with
  | O, _ => s
  | S n', String _ s' => drop n' s'
  | S _, EmptyString => EmptyString
  end.

(** [c in s] for a single character. *)
Fixpoint has_char (c : ascii) (s : string) : bool :=
  match s with
  | EmptyString => false
  | String a s' => Ascii.eqb a c || has_char c s'
  end.

(** [s.replace("", new)]: [new] is inserted before every character and
    at the end. A character here is a character of the Rocq string; for
    ASCII text, and only there, it is a character of the Python string. *)
Fixpoint replace_empty (new s : string) : string :=
  match s with
  | EmptyString => new
  | String c s' => new ++ String c (replace_empty new s')
  end.

(** [s.replace(old, new)] for a non-empty [old]: scan from the left; at
    an occurrence of [old] emit [new] and resume after the occurrence,
    otherwise copy one character. *)
Equations? replace_from (old new s : string) : string by wf (String.length s) lt :=
  replace_from old new EmptyString := EmptyString;
  replace_from old new (String c t) with startswith old (String c t) := {
    | true := new ++ replace_from old new (drop (String.length old - 1) t);
    | false := String c (replace_from old new t) }.
Proof.
  all: simpl; try lia.
  clear; generalize (String.length old - 1); intros n; revert t.
  induction n as [|n IH]; intros [|b t]; simpl; try lia.
  specialize (IH t); lia.
Qed.

(** [s.replace(old, new)] (every non-overlapping occurrence, from the
    left). *)
Definition replace (old new s : string) : string :=
  if old =? "" then replace_empty new s else replace_from old new s.

(** [s.rsplit(sep, maxsplit=1)] for a one-character separator, as the
    pair around the last separator; [None] when [s] has no separator
    (Python then returns the one-element list [[s]]). *)
Fixpoint rsplit_last (sep : ascii) (s : string) : option (string * string) :=
  match s with
  | EmptyString => None
  | String c t =>
      match rsplit_last sep t with
      | Some (a, b) => Some (String c a, b)
      | None => if Ascii.eqb c sep then Some (EmptyString, t) else None
      end
  end.

Definition rsplit1 (sep : ascii) (s : string) : list string :=
  match rsplit_last sep s with
  | Some (a, b) => [a; b]
  | None => [s]
  end.

End PyStr.

(** ** Exceptions, log records, the trace and the worker's world *)

(** Raised values. [IndexError], [TypeError], [ValueError], [RuntimeError]
    and [ExternalError] (an error of a collaborator) are instances of
    [Exception]; [KeyboardInterrupt] and [SystemExit] derive from
    [BaseException] only. *)
Inductive exn : Type :=
| IndexError (msg : string)
| TypeError (msg : string)
| ValueError (msg : string)
| RuntimeError (msg : string)
| ExternalError (msg : string)
| KeyboardInterrupt
| SystemExit (code : Z).

(** [isinstance(e, Exception)]. *)
Definition is_Exception (e : exn) : bool :=
  match e with
  | KeyboardInterrupt | SystemExit _ => false
  | _ => true
  end.

(** [str(exc)]. *)
Definition str_exn (e : exn) : string :=
  match e with
  | IndexError m | TypeError m | ValueError m | RuntimeError m | ExternalError m => m
  | KeyboardInterrupt => ""
  | SystemExit _ => ""
  end.

Inductive level : Type := DEBUG | INFO | ERROR.

(** Arguments of a log call, kept unformatted as the logging module keeps
    them in the record. *)
Inductive value : Type :=
| VStr (s : string)
| VInt (z : Z)
| VNone.

Definition value_of (o : option string) : value :=
  match o with
  | Some s => VStr s
  | None => VNone
  end.

(** What a process is observed to do: a call to the logger, the entry of
    [_push_image] with its arguments, a call to [run_command], a call to
    [image_analysis]. *)
Inductive event : Type :=
| Log (lvl : level) (fmt : string) (args : list value)
| PushImage (image push_registry : string) (registry_user registry_password : option string)
            (src_verify_tls dst_verify_tls : bool)
| RunCommand (cmd : string)
| ImageAnalysis (image : string) (registry_user registry_password : option string)
                (verify_tls nowait : bool).

(** The state a producer or a worker acts on: the shared FIFO queue (head
    is the next item [queue.get()] returns), the trace of events so far
    (oldest first), and the number of external calls answered so far. *)
Record world : Type := mkWorld {
  queue : list string;
  trace : list event;
  tick : nat
}.

Inductive outcome (A : Type) : Type :=
| Ret (a : A)
| Raise (e : exn).
Arguments Ret {A} a.
Arguments Raise {A} e.

(** State and exception monad of a process. *)
Definition M (A : Type) : Type := world -> outcome A * world.

Definition ret {A} (a : A) : M A := fun w => (Ret a, w).
Definition raise {A} (e : exn) : M A := fun w => (Raise e, w).
Definition bind {A B} (m : M A) (k : A -> M B) : M B :=
  fun w =>
    match m w with
    | (Ret a, w') => k a w'
    | (Raise e, w') => (Raise e, w')
    end.

Declare Scope py_scope.
Delimit Scope py_scope with py.
Notation "x <- c ;; k" := (bind c (fun x => k))
  (at level 61, c at next level, right associativity) : py_scope.
Notation "c ;;; k" := (bind c (fun _ => k))
  (at level 61, right associativity) : py_scope.
Local Open Scope py_scope.

Definition emit (e : event) : M unit :=
  fun w => (Ret tt, mkWorld (queue w) (trace w ++ [e])%list (tick w)).

Definition log (lvl : level) (fmt : string) (args : list value) : M unit :=
  emit (Log lvl fmt args).

(** [queue.put(r)]. *)
Definition queue_put (r : string) : M unit :=
  fun w => (Ret tt, mkWorld (queue w ++ [r])%list (trace w) (tick w)).

Definition nl : string := String (ascii_of_nat 10) EmptyString.

(** Where the [while True] loop of a process stands. *)
Inductive proc_status : Type :=
| Blocked               (* inside [queue.get()], the queue is empty *)
| Running               (* at the head of the loop, more iterations to come *)
| Died (e : exn).       (* an exception left the loop *)

(** Truthiness test on an [Optional[str]] that hands the string to the
    taken branch. *)
Definition if_truthy {A} (o : option string) (yes : string -> A) (no : A) : A :=
  match o with
  | Some s => if s =? "" then no else yes s
  | None => no
  end.

(** ** Producers and workers *)

(** A build object as the event producer reads it. *)
Record build : Type := mkBuild {
  metadata_name : string;
  status_phase : option string;
  status_outputDockerImageReference : string
}.

(** [phase != "Complete"]. *)
Definition phase_not_complete (phase : option string) : bool :=
  match phase with
  | Some p => negb (p =? "Complete")
  | None => true
  end.

(** Loop of [_event_producer] over the events the watch has delivered. *)
Fixpoint event_loop (events : list build) : M unit :=
  match events with
  | [] => ret tt
  | event :: rest =>
      if phase_not_complete (status_phase event) then
        log DEBUG "Ignoring build event for %r - not completed phase %r"
            [VStr (metadata_name event); value_of (status_phase event)] ;;;
        event_loop rest
      else
        let event_name := metadata_name event in
        let output_reference := status_outputDockerImageReference event in
        log INFO "Queueing %r based on build event %r for further processing"
            [VStr output_reference; VStr event_name] ;;;
        queue_put output_reference ;;;
        event_loop rest
  end.

Definition _event_producer (events : list build) : M unit :=
  log INFO "Starting event producer" [] ;;;
  event_loop events.

(** An image stream as the existing-image producer reads it; [status.tags]
    may be missing. *)
Record image_stream : Type := mkImageStream {
  stream_name : string;
  dockerImageRepository : string;
  tags : option (list string)
}.

(** The inner loop of [_existing_producer], over [item.status.tags or []]. *)
Fixpoint tag_loop (repository : string) (tag_infos : list string) : M unit :=
  match tag_infos with
  | [] => ret tt
  | tag :: rest =>
      let output_reference := repository ++ ":" ++ tag in
      log INFO "Queueing already existing image %r for analysis" [VStr output_reference] ;;;
      queue_put output_reference ;;;
      tag_loop repository rest
  end.

Fixpoint stream_loop (items : list image_stream) : M unit :=
  match items with
  | [] => ret tt
  | item :: rest =>
      log DEBUG "Listing tags available for %r" [VStr (stream_name item)] ;;;
      tag_loop (dockerImageRepository item)
               (match tags item with Some l => l | None => [] end) ;;;
      stream_loop rest
  end.

(** [_existing_producer] on the image streams the cluster lists for the
    namespace. *)
Definition _existing_producer (items : list image_stream) : M unit :=
  stream_loop items ;;;
  log INFO
      "Queuing existing images for analyses has finished, all of them were scheduled for analysis"
      [].

Section Worker.

(** Path of the copy tool, read from the process environment. *)
Variable _SKOPEO_EXEC_PATH : string.

(** [run_command(cmd)] of thoth.analyzer, as answered at a given tick:
    it raises, or returns the command's stdout and stderr. *)
Variable run_command : nat -> string -> exn + (string * string).

(** [image_analysis(image=, registry_user=, registry_password=,
    verify_tls=, nowait=)] of thamos, as answered at a given tick: it
    raises, or returns the analysis id. *)
Variable image_analysis :
  nat -> string -> option string -> option string -> bool -> bool -> exn + string.

Definition call_run_command (cmd : string) : M (string * string) :=
  fun w =>
    let w' := mkWorld (queue w) (trace w ++ [RunCommand cmd])%list (S (tick w)) in
    match run_command (tick w) cmd with
    | inl e => (Raise e, w')
    | inr out => (Ret out, w')
    end.

Definition call_image_analysis (image : string) (registry_user registry_password : option string)
           (verify_tls nowait : bool) : M string :=
  fun w =>
    let w' := mkWorld (queue w)
                      (trace w ++ [ImageAnalysis image registry_user registry_password
                                                 verify_tls nowait])%list
                      (S (tick w)) in
    match image_analysis (tick w) image registry_user registry_password verify_tls nowait with
    | inl e => (Raise e, w')
    | inr analysis_id => (Ret analysis_id, w')
    end.

(** [image.rsplit("/", maxsplit=1)[1]]. *)
Definition image_name_of (image : string) : M string :=
  match nth_error (PyStr.rsplit1 "/" image) 1 with
  | Some name => ret name
  | None => raise (IndexError "list index out of range")
  end.

(** [cmd.replace(registry_password, "***")]: [str.replace] refuses
    [None]. *)
Definition redact (cmd : string) (registry_password : option string) : M string :=
  match registry_password with
  | Some p => ret (PyStr.replace p "***" cmd)
  | None => raise (TypeError "replace() argument 1 must be str, not None")
  end.

(** The command text of [_push_image] up to the credentials. *)
Definition copy_flags (registry_user registry_password : option string)
           (src_verify_tls dst_verify_tls : bool) : string :=
  let cmd := _SKOPEO_EXEC_PATH ++ " copy " in
  let cmd := if negb src_verify_tls then cmd ++ "--src-tls-verify=false " else cmd in
  let cmd := if negb dst_verify_tls then cmd ++ "--dest-tls-verify=false " else cmd in
  if_truthy registry_user
    (fun user =>
       let cmd := cmd ++ "--dest-creds=" ++ user in
       let cmd := if_truthy registry_password (fun password => cmd ++ ":" ++ password) cmd in
       cmd ++ " ")
    cmd.

Definition _push_image (image push_registry : string)
           (registry_user registry_password : option string)
           (src_verify_tls dst_verify_tls : bool) : M string :=
  emit (PushImage image push_registry registry_user registry_password
                  src_verify_tls dst_verify_tls) ;;;
  let cmd := copy_flags registry_user registry_password src_verify_tls dst_verify_tls in
  image_name <- image_name_of image ;;
  let output := push_registry ++ "/" ++ image_name in
  log DEBUG "Pushing image %r from %r to registry %r, output is %r"
      [VStr image_name; VStr image; VStr push_registry; VStr output] ;;;
  let cmd := cmd ++ "docker://" ++ image ++ " docker://" ++ output in
  shown <- redact cmd registry_password ;;
  log DEBUG "Running: %s" [VStr shown] ;;;
  command <- call_run_command cmd ;;
  log DEBUG ("%s stdout:" ++ nl ++ "%s" ++ nl ++ "%s")
      [VStr _SKOPEO_EXEC_PATH; VStr (fst command); VStr (snd command)] ;;;
  ret output.

Definition _do_analyze_image (output_reference : string) (push_registry : option string)
           (registry_user registry_password : option string)
           (src_verify_tls dst_verify_tls : bool) : M string :=
  output_reference <-
    if_truthy push_registry
      (fun push_registry =>
         log INFO "Pushing image %r to an external push registry %r"
             [VStr output_reference; VStr push_registry] ;;;
         output_reference <- _push_image output_reference push_registry
                               registry_user registry_password
                               src_verify_tls dst_verify_tls ;;
         log INFO "Successfully pushed image to %r" [VStr output_reference] ;;;
         ret output_reference)
      (ret output_reference) ;;
  analysis_id <- call_image_analysis output_reference registry_user registry_password
                   dst_verify_tls true ;;
  log INFO "Successfully submitted %r to Thoth for analysis; analysis id: %s"
      [VStr output_reference; VStr analysis_id] ;;;
  ret analysis_id.

(** One iteration of the loop of [_submitter] on the dequeued
    [output_reference]: [Ret tt] when the loop goes on, [Raise e] when
    [e] leaves the loop. The handler is [except Exception]. *)
Definition submitter_body (output_reference : string) (push_registry : option string)
           (registry_user registry_password : option string)
           (no_registry_tls_verify : bool) : M unit :=
  log INFO "Handling analysis of image %r" [VStr output_reference] ;;;
  fun w =>
    match _do_analyze_image output_reference push_registry registry_user registry_password
                            (negb no_registry_tls_verify) (negb no_registry_tls_verify) w with
    | (Ret _, w') => (Ret tt, w')
    | (Raise exc, w') =>
        if is_Exception exc then
          log ERROR "Failed to submit image %r for analysis to Thoth: %s"
              [VStr output_reference; VStr (str_exn exc)] w'
        else (Raise exc, w')
    end.

(** [_submitter], run for at most [fuel] iterations. [queue.get()] is
    taken to answer: it returns the head of the queue or blocks on an
    empty queue; a queue manager that is gone, whose proxy raises in
    [queue.get()] outside the [try], is not part of this model. *)
Fixpoint _submitter (fuel : nat) (push_registry : option string)
         (registry_user registry_password : option string)
         (no_registry_tls_verify : bool) (w : world) : proc_status * world :=
  match fuel with
  | O => (Running, w)
  | S fuel' =>
      match queue w with
      | [] => (Blocked, w)
      | output_reference :: rest =>
          match submitter_body output_reference push_registry registry_user registry_password
                               no_registry_tls_verify
                               (mkWorld rest (trace w) (tick w)) with
          | (Ret _, w') =>
              _submitter fuel' push_registry registry_user registry_password
                         no_registry_tls_verify w'
          | (Raise e, w') => (Died e, w')
          end
      end
  end.

End Worker.

(** ** The supervisor: [cli] *)

(** The options [click] hands to [cli]. *)
Record options : Type := mkOptions {
  build_watcher_namespace : string;
  thoth_api_host : option string;
  verbose : bool;
  no_tls_verify : bool;
  no_registry_tls_verify : bool;
  pass_token : bool;
  registry_user : option string;
  registry_password : option string;
  push_registry : option string;
  analyze_existing : bool;
  workers_count : Z
}.

(** What a started [Process] runs: its target and arguments (the queue,
    shared by all, is left out). *)
Inductive target : Type :=
| Existing_producer (namespace : string)
| Event_producer (namespace : string)
| Submitter (push_registry registry_user registry_password : option string)
            (no_registry_tls_verify : bool).

(** State of the main process: the processes started so far, oldest
    first (a process is referred to by its position in this list), the
    log calls made, the two settings assigned onto thamos' configuration
    object, whether the logger was set to DEBUG, and the time spent in
    [time.sleep], in seconds. *)
Record main_state : Type := mkMain {
  started : list target;
  main_trace : list event;
  explicit_host : option (option string);
  tls_verify : option bool;
  debug_level : bool;
  clock : Z
}.

Definition main_init : main_state := mkMain [] [] None None false 0.

Definition main_log (lvl : level) (fmt : string) (args : list value) (st : main_state)
  : main_state :=
  mkMain (started st) (main_trace st ++ [Log lvl fmt args])%list (explicit_host st)
         (tls_verify st) (debug_level st) (clock st).

(** [p = Process(target=..., args=...); p.start()]: the new process and
    the state after. *)
Definition start (t : target) (st : main_state) : nat * main_state :=
  (List.length (started st),
   mkMain (started st ++ [t])%list (main_trace st) (explicit_host st) (tls_verify st)
          (debug_level st) (clock st)).

(** [time.sleep(seconds)]. *)
Definition sleep (seconds : Z) (st : main_state) : main_state :=
  mkMain (started st) (main_trace st) (explicit_host st) (tls_verify st) (debug_level st)
         (clock st + seconds).

Definition is_submitter (t : target) : bool :=
  match t with
  | Submitter _ _ _ _ => true
  | _ => false
  end.

Definition is_event_producer (t : target) : bool :=
  match t with
  | Event_producer _ => true
  | _ => false
  end.

(** Exit status of the interpreter once an exception has left [cli]. No
    [Process] is created as a daemon, so at exit [multiprocessing] joins
    the processes [cli] has started: the interpreter ends, with the code
    of a [SystemExit] and with 1 for any other exception, only when none
    of them is alive any more. There is no exit status while [cli] runs
    or while a child process lives. *)
Definition exit_status (s : proc_status) (child_alive : bool) : option Z :=
  match s with
  | Died e =>
      if child_alive then None
      else match e with
           | SystemExit code => Some code
           | _ => Some 1%Z
           end
  | _ => None
  end.

(** Whether a process that was started answers alive at time [t]. *)
Definition child_alive (is_alive : nat -> Z -> bool) (st : main_state) (t : Z) : bool :=
  existsb (fun process => is_alive process t) (seq 0 (List.length (started st))).

Section Supervisor.

(** [OpenShift()] of thoth.common: it raises, or gives a client, of which
    [cli] reads the token only. *)
Variable OpenShift_new : exn + string.

(** [process.is_alive()] of the process at a position of [started], at a
    time of the main process' clock. *)
Variable is_alive : nat -> Z -> bool.

(** [p.pid]. *)
Variable pid : nat -> Z.

(** The [for worker in range(workers_count)] loop, [n] iterations left. *)
Fixpoint start_workers (n : nat) (t : target) (process_pool : list nat) (st : main_state)
  : list nat * main_state :=
  match n with
  | O => (process_pool, st)
  | S n' =>
      let (p, st) := start t st in
      let st := main_log INFO "Started a new worker with PID: %d" [VInt (pid p)] st in
      start_workers n' t (process_pool ++ [p])%list st
  end.

(** The liveness loop at the end of [cli], for at most [fuel] polls. *)
Fixpoint poll (fuel : nat) (process_pool : list nat) (st : main_state)
  : proc_status * main_state :=
  match fuel with
  | O => (Running, st)
  | S fuel' =>
      if existsb (fun process => negb (is_alive process (clock st))) process_pool
      then (Died (RuntimeError "One of the processes failed"), st)
      else poll fuel' process_pool (sleep 5 st)
  end.

Definition cli (o : options) (fuel : nat) : proc_status * main_state :=
  let st := main_init in
  let st := if verbose o
            then mkMain (started st) (main_trace st) (explicit_host st) (tls_verify st) true
                        (clock st)
            else st in
  let st := main_log INFO
              "Build watcher is watching namespace %r and submitting resulting images to Thoth at %r"
              [VStr (build_watcher_namespace o); value_of (thoth_api_host o)] st in
  let st := if analyze_existing o
            then snd (start (Existing_producer (build_watcher_namespace o)) st)
            else st in
  let st := mkMain (started st) (main_trace st) (Some (thoth_api_host o))
                   (Some (negb (no_tls_verify o))) (debug_level st) (clock st) in
  match OpenShift_new with
  | inl e => (Died e, st)
  | inr token =>
      let checked :=
        if pass_token o then
          if PyStr.truthy (registry_password o)
          then inl (ValueError "Flag --pass-token is disjoint with explicit password propagation")
          else inr (Some token)
        else inr (registry_password o) in
      match checked with
      | inl e => (Died e, st)
      | inr registry_password =>
          let (producer, st) := start (Event_producer (build_watcher_namespace o)) st in
          let args := Submitter (push_registry o) (registry_user o) registry_password
                                (no_registry_tls_verify o) in
          let st := main_log INFO "Starting worker processes, number of workers is set to: %d"
                             [VInt (workers_count o)] st in
          let (process_pool, st) := start_workers (Z.to_nat (workers_count o)) args [] st in
          poll fuel process_pool st
      end
  end.

End Supervisor.

(** ** The worker pool against the shared queue *)

Module Pool.

(** A worker is between two iterations, or holds the reference its
    [queue.get()] returned and has not yet finished the [try] block. *)
Inductive slot : Type :=
| Idle
| Holding (r : string).

(** The references the producers have still to put, the queue, the
    workers, and the attempts made so far (worker, reference), oldest
    first. *)
Record sys : Type := mkSys {
  to_put : list string;
  shared : list string;
  slots : list slot;
  attempts : list (nat * string)
}.

(** A producer's [queue.put], worker [i]'s [queue.get()], worker [i]'s
    call of [_do_analyze_image] (to its end, whatever it is). *)
Inductive action : Type :=
| Put
| Get (i : nat)
| Analyze (i : nat).

Fixpoint update {A} (i : nat) (x : A) (l : list A) : list A :=
  match l, i with
  | [], _ => []
  | _ :: t, O => x :: t
  | a :: t, S i' => a :: update i' x t
  end.

Definition step (a : action) (s : sys) : option sys :=
  match a with
  | Put =>
      match to_put s with
      | r :: rest => Some (mkSys rest (shared s ++ [r])%list (slots s) (attempts s))
      | [] => None
      end
  | Get i =>
      match nth_error (slots s) i, shared s with
      | Some Idle, r :: rest =>
          Some (mkSys (to_put s) rest (update i (Holding r) (slots s)) (attempts s))
      | _, _ => None
      end
  | Analyze i =>
      match nth_error (slots s) i with
      | Some (Holding r) =>
          Some (mkSys (to_put s) (shared s) (update i Idle (slots s))
                      (attempts s ++ [(i, r)])%list)
      | _ => None
      end
  end.

Fixpoint run (sched : list action) (s : sys) : option sys :=
  match sched with
  | [] => Some s
  | a :: rest =>
      match step a s with
      | Some s' => run rest s'
      | None => None
      end
  end.

(** The pool [cli] starts: [range(workers_count)] workers, an empty
    queue, and the references the producers are going to put. *)
Definition init (workers_count : Z) (refs : list string) : sys :=
  mkSys refs [] (repeat Idle (Z.to_nat workers_count)) [].

Definition slot_items (w : slot) : list string :=
  match w with
  | Idle => []
  | Holding r => [r]
  end.

(** The references held by workers. *)
Definition held (s : sys) : list string := flat_map slot_items (slots s).

(** Every reference that has not been attempted yet, wherever it is. *)
Definition everything (s : sys) : list string :=
  (map snd (attempts s) ++ held s ++ shared s ++ to_put s)%list.

(** Steps a reference still has to go through: put, get, analyze. *)
Definition weight (s : sys) : nat :=
  3 * List.length (to_put s) + 2 * List.length (shared s) + List.length (held s).

End Pool.

(** The full command text [_push_image] hands to [run_command]. *)
Definition copy_command (skopeo image push_registry image_name : string)
           (registry_user registry_password : option string)
           (src_verify_tls dst_verify_tls : bool) : string :=
  copy_flags skopeo registry_user registry_password src_verify_tls dst_verify_tls
  ++ "docker://" ++ image ++ " docker://" ++ (push_registry ++ "/" ++ image_name).

(** The events a computation appends to the trace. *)
Definition new_events {A} (m : M A) (w : world) : list event :=
  skipn (List.length (trace w)) (trace (snd (m w))).

(** The references handed to [image_analysis] in a list of events. *)
Fixpoint submitted (evs : list event) : list string :=
  match evs with
  | [] => []
  | ImageAnalysis image _ _ _ _ :: rest => image :: submitted rest
  | _ :: rest => submitted rest
  end.

(** The command texts handed to [run_command] in a list of events. *)
Fixpoint commands (evs : list event) : list string :=
  match evs with
  | [] => []
  | RunCommand cmd :: rest => cmd :: commands rest
  | _ :: rest => commands rest
  end.

(** The collaborators raise instances of [Exception] only. *)
Definition raise_exceptions_only
           (run_command : nat -> string -> exn + (string * string))
           (image_analysis :
              nat -> string -> option string -> option string -> bool -> bool -> exn + string)
  : Prop :=
  (forall t cmd e, run_command t cmd = inl e -> is_Exception e = true) /\
  (forall t image user password verify_tls nowait e,
      image_analysis t image user password verify_tls nowait = inl e ->
      is_Exception e = true).

(** A world with an empty queue and nothing observed yet. *)
Definition world0 : world := mkWorld [] [] 0.

(** A build whose phase is the terminal success phase. *)
Definition is_complete (ev : build) : bool :=
  match status_phase ev with
  | Some p => (p =? "Complete")%string
  | None => false
  end.

(** Position in [started] of the event producer, and of the [i]-th
    worker: the existing-image producer, when there is one, is started
    first. *)
Definition producer_position (o : options) : nat :=
  if analyze_existing o then 1 else 0.

Definition worker_position (o : options) (i : nat) : nat :=
  S (producer_position o + i).

(** The configuration conflict [cli] checks for. *)
Definition conflict (o : options) : bool :=
  pass_token o && PyStr.truthy (registry_password o).

(** Sample answers of the collaborators, for closed examples. *)
Definition run_ok : nat -> string -> exn + (string * string) :=
  fun _ _ => inr ("", "").

Definition run_fails : nat -> string -> exn + (string * string) :=
  fun _ _ => inl (ExternalError "copy failed").

Definition analysis_ok
  : nat -> string -> option string -> option string -> bool -> bool -> exn + string :=
  fun _ _ _ _ _ _ => inr "analysis-1".

Definition sample_options : options :=
  mkOptions "builds" (Some "api.example") false false false false None None None false 1.

Definition no_worker_options : options :=
  mkOptions "builds" (Some "api.example") false false false false None None None false 0.

Definition conflicting_options : options :=
  mkOptions "builds" (Some "api.example") false false false true None (Some "secret") None
            true 1.

Definition pid0 : nat -> Z := fun p => (1000 + Z.of_nat p)%Z.

(** The process at position 0 never answers alive, the others always
    do. *)
Definition first_is_dead : nat -> Z -> bool :=
  fun p _ => negb (p =? 0)%nat.

(** The process at position 1 answers alive before time 7 only, the
    others always do. *)
Definition second_dies_at_7 : nat -> Z -> bool :=
  fun p t => if (p =? 1)%nat then (t <? 7)%Z else true.

(** ** Observations used by the further properties *)

(** The references [_existing_producer] builds for one image stream, one
    per tag of [item.status.tags or []]. *)
Definition stream_references (item : image_stream) : list string :=
  map (fun tag => dockerImageRepository item ++ ":" ++ tag)
      (match tags item with Some l => l | None => [] end).

Definition existing_references (items : list image_stream) : list string :=
  flat_map stream_references items.

(** The log records [_existing_producer] makes for one image stream. *)
Definition stream_events (item : image_stream) : list event :=
  Log DEBUG "Listing tags available for %r" [VStr (stream_name item)]
  :: map (fun r => Log INFO "Queueing already existing image %r for analysis" [VStr r])
         (stream_references item).

(** The log record [_event_producer] makes for one event. *)
Definition build_event (ev : build) : event :=
  if phase_not_complete (status_phase ev)
  then Log DEBUG "Ignoring build event for %r - not completed phase %r"
           [VStr (metadata_name ev); value_of (status_phase ev)]
  else Log INFO "Queueing %r based on build event %r for further processing"
           [VStr (status_outputDockerImageReference ev); VStr (metadata_name ev)].

(** The first argument of the INFO records that have a string as first
    argument: what a process announces. *)
Fixpoint announced (evs : list event) : list string :=
  match evs with
  | [] => []
  | Log INFO _ (VStr r :: _) :: rest => r :: announced rest
  | _ :: rest => announced rest
  end.

(** The references a worker reports to take in hand. *)
Fixpoint handled (evs : list event) : list string :=
  match evs with
  | [] => []
  | Log INFO fmt [VStr r] :: rest =>
      if (fmt =? "Handling analysis of image %r")%string
      then r :: handled rest
      else handled rest
  | _ :: rest => handled rest
  end.

(** The images [_push_image] was entered with. *)
Fixpoint relocations (evs : list event) : list string :=
  match evs with
  | [] => []
  | PushImage image _ _ _ _ _ :: rest => image :: relocations rest
  | _ :: rest => relocations rest
  end.

(** Text made of ASCII characters only. *)
Fixpoint is_ascii_text (s : string) : bool :=
  match s with
  | EmptyString => true
  | String c s' => (nat_of_ascii c <? 128)%nat && is_ascii_text s'
  end.

(** The events of [w'] that [w] does not have yet. *)
Definition events_since (w w' : world) : list event :=
  skipn (List.length (trace w)) (trace w').

(** The options with other values of [--no-tls-verify] and [--verbose]. *)
Definition with_api_flags (no_tls verb : bool) (o : options) : options :=
  mkOptions (build_watcher_namespace o) (thoth_api_host o) verb no_tls
            (no_registry_tls_verify o) (pass_token o) (registry_user o)
            (registry_password o) (push_registry o) (analyze_existing o) (workers_count o).

(** A collaborator that is interrupted. *)
Definition run_interrupted : nat -> string -> exn + (string * string) :=
  fun _ _ => inl KeyboardInterrupt.

Definition is_log (ev : event) : bool :=
  match ev with
  | Log _ _ _ => true
  | _ => false
  end.

Definition two_streams : list image_stream :=
  [mkImageStream "app" "reg/builds/app" (Some ["1"; "latest"]);
   mkImageStream "old" "reg/builds/old" None].

Definition three_events : list build :=
  [mkBuild "b1" (Some "Running") "reg/builds/web:1";
   mkBuild "b1" (Some "Complete") "reg/builds/web:1";
   mkBuild "b2" (Some "Failed") "reg/builds/db:2"].

Definition token_options : options :=
  mkOptions "builds" (Some "api.example") false false true true (Some "bot") None
            (Some "quay.io/org") true 2.

(** * Properties *)

(** ** Facts on the string operations *)

Module PyStrFacts.
Import PyStr.

Lemma startswith_iff (p s : string) :
  startswith p s = true <-> exists r, s = p ++ r.
Proof.
  revert s; induction p as [|a p IH]; intros s; simpl.
  - split; [intros _; exists s; reflexivity | reflexivity].
  - destruct s as [|b s].
    + split; [discriminate | intros [r Hr]; discriminate].
    + rewrite andb_true_iff, Ascii.eqb_eq, IH. split.
      * intros [-> [r ->]]. exists r; reflexivity.
      * intros [r Hr]. injection Hr as -> ->. split; [reflexivity | exists r; reflexivity].
Qed.

Lemma contains_iff (p s : string) :
  contains p s = true <-> exists a b, s = a ++ p ++ b.
Proof.
  induction s as [|c s IH]; simpl.
  - rewrite orb_false_r, startswith_iff. split.
    + intros [r Hr]. exists "", r. exact Hr.
    + intros [a [b H]]. destruct a; simpl in H; [exists b; exact H | discriminate].
  - rewrite orb_true_iff, startswith_iff, IH. split.
    + intros [[r Hr] | [a [b H]]].
      * exists "", r. exact Hr.
      * exists (String c a), b. simpl. now rewrite H.
    + intros [a [b H]]. destruct a as [|c' a]; simpl in H.
      * left. exists b. exact H.
      * right. injection H as _ H. exists a, b. exact H.
Qed.

Lemma rsplit_last_none (sep : ascii) (s : string) :
  rsplit_last sep s = None <-> has_char sep s = false.
Proof.
  induction s as [|c s IH]; simpl; [tauto|].
  destruct (rsplit_last sep s) as [[a b]|].
  - split; [discriminate|]. rewrite orb_false_iff. intros [_ H].
    apply IH in H. discriminate.
  - destruct (Ascii.eqb c sep); simpl; [split; discriminate|].
    rewrite <- IH. tauto.
Qed.

(** [rsplit_last] cuts at the last separator: what follows it has
    none. *)
Lemma rsplit_last_some (sep : ascii) (s a b : string) :
  rsplit_last sep s = Some (a, b) <-> s = a ++ String sep b /\ has_char sep b = false.
Proof.
  revert a; induction s as [|c s IH]; intros a; simpl.
  - split; [discriminate|]. intros [H _]. destruct a; discriminate.
  - destruct (rsplit_last sep s) as [[a' b']|] eqn:E.
    + split.
      * intros H. injection H as <- <-. destruct (proj1 (IH a') eq_refl) as [-> Hb].
        split; [reflexivity | exact Hb].
      * intros [H Hb]. destruct a as [|c' a]; simpl in H.
        -- injection H as -> ->. apply rsplit_last_none in Hb. congruence.
        -- injection H as -> H. assert (Some (a', b') = Some (a, b)) as X
             by (apply IH; split; assumption).
           now injection X as -> ->.
    + apply rsplit_last_none in E. destruct (Ascii.eqb c sep) eqn:Ec.
      * apply Ascii.eqb_eq in Ec; subst c. split.
        -- intros H. injection H as <- <-. split; [reflexivity | exact E].
        -- intros [H Hb]. destruct a as [|c' a]; simpl in H.
           ++ injection H as ->. reflexivity.
           ++ injection H as -> H. exfalso. subst s. clear -E.
              induction a as [|x a IHa]; simpl in E.
              ** rewrite Ascii.eqb_refl in E. discriminate.
              ** apply orb_false_iff in E. tauto.
      * split; [discriminate|]. intros [H Hb]. destruct a as [|c' a]; simpl in H.
        -- injection H as -> _. rewrite Ascii.eqb_refl in Ec. discriminate.
        -- injection H as -> H. exfalso. subst s. clear -E.
           induction a as [|x a IHa]; simpl in E.
           ++ rewrite Ascii.eqb_refl in E. discriminate.
           ++ apply orb_false_iff in E. tauto.
Qed.

End PyStrFacts.

Module ReplaceFacts.
Import PyStr.

Lemma startswith_star (q r : string) :
  q <> "" -> has_char "*" q = false -> startswith q (String "*" r) = false.
Proof.
  destruct q as [|a q]; [congruence|]. simpl. intros _ H.
  apply orb_false_iff in H. destruct H as [H _]. now rewrite H.
Qed.

(** A text without the mask's character that begins the redacted string
    begins the original one too. *)
Lemma startswith_replace_from (p new' t : string) :
  forall q, has_char "*" q = false ->
  startswith q (replace_from p (String "*" new') t) = true -> startswith q t = true.
Proof.
  remember (String "*" new') as new eqn:Hnew.
  funelim (replace_from p new t); intros q Hq Hs.
  - simp replace_from in Hs.
  - destruct q as [|a q]; [reflexivity|]. cbn [append] in Hs.
    rewrite startswith_star in Hs; [discriminate | discriminate | exact Hq].
  - destruct q as [|a q]; [reflexivity|]. simpl in Hs |- *.
    apply andb_true_iff in Hs. destruct Hs as [Ha Hs]. rewrite Ha. simpl.
    simpl in Hq. apply orb_false_iff in Hq.
    eapply H; [reflexivity | tauto | exact Hs].
Qed.

Lemma contains_star (p r : string) :
  p <> "" -> has_char "*" p = false -> contains p (String "*" r) = contains p r.
Proof.
  intros Hp Hs. simpl. now rewrite startswith_star.
Qed.

Lemma replace_from_free_gen (p new t : string) :
  new = "***" -> p <> "" -> has_char "*" p = false ->
  contains p (replace_from p new t) = false.
Proof.
  funelim (replace_from p new t); intros Hnew Hp Hs; subst new.
  - simp replace_from. destruct old; [congruence | reflexivity].
  - cbn [append]. rewrite !contains_star by assumption. now apply H.
  - change (contains old (String c (replace_from old "***" t)))
      with (startswith old (String c (replace_from old "***" t))
            || contains old (replace_from old "***" t)).
    rewrite (H eq_refl Hp Hs), orb_false_r.
    destruct (startswith old (String c (replace_from old "***" t))) eqn:E; [|reflexivity].
    rewrite Heqcall in E. apply startswith_replace_from in E; [congruence | exact Hs].
Qed.

Lemma replace_from_free (p t : string) :
  p <> "" -> has_char "*" p = false -> contains p (replace_from p "***" t) = false.
Proof. now apply replace_from_free_gen. Qed.

(** Redacting a non-empty password that has no [*] leaves no occurrence
    of it. *)
Lemma replace_star_free (p t : string) :
  p <> "" -> has_char "*" p = false -> contains p (replace p "***" t) = false.
Proof.
  intros Hp Hs. unfold replace. destruct (String.eqb_spec p ""); [congruence|].
  now apply replace_from_free.
Qed.

End ReplaceFacts.

Example replace_every_occurrence :
  PyStr.replace "ab" "***" "xxabyabab" = "xx***y******".
Proof. reflexivity. Qed.

Example replace_does_not_overlap : PyStr.replace "aa" "***" "aaa" = "***a".
Proof. reflexivity. Qed.

Example replace_empty_pattern : PyStr.replace "" "-" "abc" = "-a-b-c-".
Proof. reflexivity. Qed.

(** A password that ends in [*] can be read again across the edge of the
    mask. *)
Example replace_mask_overlap :
  PyStr.replace ":*" "***" "--dest-creds=bot::* " = "--dest-creds=bot:*** " /\
  PyStr.contains ":*" "--dest-creds=bot:*** " = true.
Proof. split; reflexivity. Qed.

Example rsplit1_last_slash : PyStr.rsplit1 "/" "reg/ns/app:1" = ["reg/ns"; "app:1"].
Proof. reflexivity. Qed.

Example rsplit1_no_slash : PyStr.rsplit1 "/" "app:1" = ["app:1"].
Proof. reflexivity. Qed.

(** ** The worker: relocation, redaction, submission *)

Lemma skipn_app_length {A} (l l' : list A) : skipn (List.length l) (l ++ l')%list = l'.
Proof. induction l as [|a l IH]; simpl; auto. Qed.

Arguments PyStr.replace : simpl never.
Arguments copy_flags : simpl never.
Arguments append : simpl never.

Ltac run_py :=
  unfold submitter_body, _do_analyze_image, _push_image, if_truthy, image_name_of, redact,
    call_run_command, call_image_analysis, bind, log, emit, ret, raise, PyStr.rsplit1,
    new_events, copy_command in *;
  simpl in *.

Ltac new_trace :=
  repeat rewrite <- app_assoc in *; rewrite ?skipn_app_length in *; simpl in *.

Ltac pick_event H :=
  repeat (destruct H as [H | H]; [try discriminate H | ]); try contradiction.

Section WorkerFacts.

Variable skopeo : string.
Variable run_command : nat -> string -> exn + (string * string).
Variable image_analysis :
  nat -> string -> option string -> option string -> bool -> bool -> exn + string.

Local Abbreviation push_image := (_push_image skopeo run_command).
Local Abbreviation do_analyze_image := (_do_analyze_image skopeo run_command image_analysis).
Local Abbreviation body := (submitter_body skopeo run_command image_analysis).
Local Abbreviation submitter := (_submitter skopeo run_command image_analysis).

(** C5 (as amended). For every non-empty registry password that has no
    [*] in it, the text recorded by the [Running: %s] log call of
    [_push_image] is the copy command with the password replaced, and the
    password does not occur in it. *)
Theorem C5_redacted_command_hides_password image push_registry user p src dst w shown :
  p <> "" ->
  PyStr.has_char "*" p = false ->
  In (Log DEBUG "Running: %s" [VStr shown])
     (new_events (push_image image push_registry user (Some p) src dst) w) ->
  (exists image_name,
      shown = PyStr.replace p "***"
                (copy_command skopeo image push_registry image_name user (Some p) src dst)) /\
  PyStr.contains p shown = false.
Proof.
  intros Hp Hstar H. run_py.
  destruct (PyStr.rsplit_last "/" image) as [[a b]|]; simpl in *.
  - destruct (run_command (tick w) _); simpl in *; new_trace; pick_event H;
      injection H as <-; (split; [exists b; reflexivity |]);
      now apply ReplaceFacts.replace_star_free.
  - new_trace. pick_event H.
Qed.

(** Without a password [_push_image] raises before it reaches
    [run_command], whatever the other arguments are. *)
Lemma push_image_without_password image push_registry user src dst w :
  fst (push_image image push_registry user None src dst w)
  = Raise (match PyStr.rsplit_last "/" image with
           | Some _ => TypeError "replace() argument 1 must be str, not None"
           | None => IndexError "list index out of range"
           end) /\
  commands (new_events (push_image image push_registry user None src dst) w) = [].
Proof.
  run_py. destruct (PyStr.rsplit_last "/" image) as [[a b]|]; simpl; new_trace; auto.
Qed.

(** C3. For the reference [r] a worker took from the queue: with no push
    registry, exactly [r] is handed to [image_analysis]; with a push
    registry [reg], whatever is handed to [image_analysis] is [reg], a
    slash, and the text after the last slash of [r]; and it is handed
    over once the copy command has returned. *)
Theorem C3_submitted_reference r push_registry user password n w :
  (PyStr.truthy push_registry = false ->
   submitted (new_events (body r push_registry user password n) w) = [r]) /\
  (forall reg image,
      push_registry = Some reg -> reg <> "" ->
      In image (submitted (new_events (body r push_registry user password n) w)) ->
      exists a b, r = a ++ "/" ++ b /\ PyStr.has_char "/" b = false /\
                  image = reg ++ "/" ++ b) /\
  (forall reg a b p out,
      push_registry = Some reg -> reg <> "" ->
      r = a ++ "/" ++ b -> PyStr.has_char "/" b = false ->
      password = Some p ->
      run_command (tick w)
        (copy_command skopeo r reg b user password (negb n) (negb n)) = inr out ->
      submitted (new_events (body r push_registry user password n) w) = [reg ++ "/" ++ b]).
Proof.
  split; [|split].
  - intros Hf.
    assert (new_events (body r push_registry user password n) w
            = new_events (body r None user password n) w) as ->.
    { destruct push_registry as [s|]; [|reflexivity]. simpl in Hf.
      unfold new_events, submitter_body, _do_analyze_image, if_truthy.
      destruct (s =? "")%string; [reflexivity | discriminate]. }
    run_py. destruct (image_analysis _ _ _ _ _ _) as [ex|id]; simpl;
      try destruct (is_Exception ex); simpl; new_trace; reflexivity.
  - intros reg image -> Hreg H. run_py.
    destruct (String.eqb_spec reg ""); [congruence|].
    destruct (PyStr.rsplit_last "/" r) as [[a b]|] eqn:Er; simpl in *.
    + apply PyStrFacts.rsplit_last_some in Er. destruct Er as [Er Hb].
      exists a, b. split; [exact Er | split; [exact Hb|]].
      destruct password as [p|]; simpl in *.
      * destruct (run_command _ _) as [e|out]; simpl in *.
        -- destruct (is_Exception e); simpl in *; new_trace; contradiction.
        -- destruct (image_analysis _ _ _ _ _ _) as [ex|id]; simpl in *;
             try destruct (is_Exception ex); simpl in *; new_trace;
             destruct H as [H|[]]; now subst.
      * new_trace. contradiction.
    + new_trace. contradiction.
  - intros reg a b p out -> Hreg Hr Hb -> Hrun. run_py.
    destruct (String.eqb_spec reg ""); [congruence|].
    assert (PyStr.rsplit_last "/" r = Some (a, b)) as ->
        by (apply PyStrFacts.rsplit_last_some; split; assumption).
    simpl. rewrite Hrun. simpl.
    destruct (image_analysis _ _ _ _ _ _) as [ex|id]; simpl;
      try destruct (is_Exception ex); simpl; new_trace; reflexivity.
Qed.

(** C10. In the handling of a dequeued reference, [_push_image] is
    entered with both TLS flags equal to [not no_registry_tls_verify], the
    copy command is built from these two flags, and [image_analysis] gets
    [verify_tls = not no_registry_tls_verify]. *)
Theorem C10_tls_flags_agree r push_registry user password n w ev :
  In ev (new_events (body r push_registry user password n) w) ->
  match ev with
  | PushImage _ _ _ _ src_verify_tls dst_verify_tls =>
      src_verify_tls = negb n /\ dst_verify_tls = negb n
  | RunCommand cmd =>
      exists reg image_name,
        cmd = copy_command skopeo r reg image_name user password (negb n) (negb n)
  | ImageAnalysis _ _ _ verify_tls _ => verify_tls = negb n
  | Log _ _ _ => True
  end.
Proof.
  intros H. run_py.
  destruct push_registry as [reg|]; [destruct (reg =? "")%string|]; simpl in *.
  2:{ destruct (PyStr.rsplit_last "/" r) as [[a b]|]; simpl in *.
      - destruct password as [p|]; simpl in *.
        + destruct (run_command _ _) as [e|out]; simpl in *.
          * destruct (is_Exception e); simpl in *; new_trace;
              pick_event H; subst ev; auto; exists reg, b; reflexivity.
          * destruct (image_analysis _ _ _ _ _ _) as [ex|id]; simpl in *;
              try destruct (is_Exception ex); simpl in *; new_trace;
              pick_event H; subst ev; auto; exists reg, b; reflexivity.
        + new_trace; pick_event H; subst ev; auto.
      - new_trace; pick_event H; subst ev; auto. }
  all: destruct (image_analysis _ _ _ _ _ _) as [ex|id]; simpl in *;
    try destruct (is_Exception ex); simpl in *; new_trace;
    pick_event H; subst ev; auto.
Qed.

(** [_do_analyze_image] puts nothing on the queue and takes nothing from
    it, and only appends to the trace. *)
Lemma do_analyze_image_frame r push_registry user password src dst w :
  let w' := snd (do_analyze_image r push_registry user password src dst w) in
  queue w' = queue w /\ exists evs, trace w' = (trace w ++ evs)%list.
Proof.
  run_py.
  destruct push_registry as [reg|]; [destruct (reg =? "")%string|]; simpl.
  2:{ destruct (PyStr.rsplit_last "/" r) as [[a b]|]; simpl.
      - destruct password as [p|]; simpl.
        + destruct (run_command _ _) as [e|out]; simpl.
          * split; [reflexivity|]. repeat rewrite <- app_assoc. eexists; reflexivity.
          * destruct (image_analysis _ _ _ _ _ _) as [ex|id]; simpl;
              (split; [reflexivity|]); repeat rewrite <- app_assoc; eexists; reflexivity.
        + split; [reflexivity|]. repeat rewrite <- app_assoc. eexists; reflexivity.
      - split; [reflexivity|]. repeat rewrite <- app_assoc. eexists; reflexivity. }
  all: destruct (image_analysis _ _ _ _ _ _) as [ex|id]; simpl;
    (split; [reflexivity|]); repeat rewrite <- app_assoc; eexists; reflexivity.
Qed.

Lemma body_frame r push_registry user password n w :
  let w' := snd (body r push_registry user password n w) in
  queue w' = queue w /\
  exists evs, trace w' = (trace w ++ Log INFO "Handling analysis of image %r" [VStr r] :: evs)%list.
Proof.
  unfold submitter_body, bind, log, emit. simpl.
  pose proof (do_analyze_image_frame r push_registry user password (negb n) (negb n)
                (mkWorld (queue w)
                         (trace w ++ [Log INFO "Handling analysis of image %r" [VStr r]])
                         (tick w))) as [Hq [evs Ht]].
  destruct (do_analyze_image _ _ _ _ _ _ _) as [[id|e] w']; simpl in *.
  - split; [exact Hq|]. exists evs. rewrite Ht, <- app_assoc. reflexivity.
  - destruct (is_Exception e); simpl.
    + split; [exact Hq|]. eexists. rewrite Ht. repeat rewrite <- app_assoc. reflexivity.
    + split; [exact Hq|]. exists evs. rewrite Ht, <- app_assoc. reflexivity.
Qed.

(** The loop of a worker only appends to the trace. *)
Lemma submitter_extends fuel push_registry user password n w :
  exists evs, trace (snd (submitter fuel push_registry user password n w))
              = (trace w ++ evs)%list.
Proof.
  revert w; induction fuel as [|fuel IH]; intros w; simpl.
  - exists []. now rewrite app_nil_r.
  - destruct (queue w) as [|r rest].
    + exists []. now rewrite app_nil_r.
    + pose proof (body_frame r push_registry user password n
                    (mkWorld rest (trace w) (tick w))) as [_ [evs Ht]].
      destruct (body _ _ _ _ _ _) as [[u|e] w']; simpl in *.
      * destruct (IH w') as [evs' Ht']. rewrite Ht', Ht, <- app_assoc. eexists; reflexivity.
      * eexists; exact Ht.
Qed.

(** C6. When the handling of the dequeued reference [r] raises an
    exception [e] (an instance of [Exception]) in relocation or
    submission, the worker records it with [r], and its loop goes on from
    there, at the head of its loop: the rest of the queue is as it was,
    [r] is not put back, and the next reference of the queue is taken in
    hand right after the failure record. *)
Theorem C6_item_failure_is_isolated fuel push_registry user password n w r rest e w' :
  queue w = r :: rest ->
  do_analyze_image r push_registry user password (negb n) (negb n)
    (mkWorld rest (trace w ++ [Log INFO "Handling analysis of image %r" [VStr r]]) (tick w))
  = (Raise e, w') ->
  is_Exception e = true ->
  let logged :=
    mkWorld (queue w')
            (trace w' ++ [Log ERROR "Failed to submit image %r for analysis to Thoth: %s"
                              [VStr r; VStr (str_exn e)]])
            (tick w') in
  submitter (S fuel) push_registry user password n w
  = submitter fuel push_registry user password n logged /\
  submitter 1 push_registry user password n w = (Running, logged) /\
  queue logged = rest /\
  (forall r2 rest2,
      rest = r2 :: rest2 ->
      exists evs,
        trace (snd (submitter (S (S fuel)) push_registry user password n w))
        = (trace logged ++ Log INFO "Handling analysis of image %r" [VStr r2] :: evs)%list).
Proof.
  intros Hq Hrun He logged.
  assert (submitter (S fuel) push_registry user password n w
          = submitter fuel push_registry user password n logged) as Hstep.
  { simpl. rewrite Hq. unfold submitter_body, bind, log, emit. simpl.
    rewrite Hrun, He. reflexivity. }
  assert (queue logged = rest) as Hrest.
  { pose proof (do_analyze_image_frame r push_registry user password (negb n) (negb n)
                  (mkWorld rest
                           (trace w ++ [Log INFO "Handling analysis of image %r" [VStr r]])
                           (tick w))) as [Hq' _].
    rewrite Hrun in Hq'. exact Hq'. }
  split; [exact Hstep | split; [|split; [exact Hrest|]]].
  { simpl. rewrite Hq. unfold submitter_body, bind, log, emit. simpl.
    rewrite Hrun, He. reflexivity. }
  intros r2 rest2 Hr2.
  assert (submitter (S (S fuel)) push_registry user password n w
          = submitter (S fuel) push_registry user password n logged) as ->.
  { simpl. rewrite Hq. unfold submitter_body at 1, bind, log, emit. simpl.
    rewrite Hrun, He. reflexivity. }
  cbn [_submitter]. rewrite Hrest, Hr2.
  pose proof (body_frame r2 push_registry user password n
                (mkWorld rest2 (trace logged) (tick logged))) as [_ [evs Ht]].
  destruct (body _ _ _ _ _ _) as [[u|e'] w2]; simpl in *.
  - destruct (submitter_extends fuel push_registry user password n w2) as [evs' Ht'].
    rewrite Ht', Ht, <- app_assoc. eexists; reflexivity.
  - eexists; exact Ht.
Qed.

(** What [_do_analyze_image] raises is its own [IndexError] or
    [TypeError], or what a collaborator raised. *)
Lemma do_analyze_image_raises r push_registry user password src dst w e :
  raise_exceptions_only run_command image_analysis ->
  fst (do_analyze_image r push_registry user password src dst w) = Raise e ->
  is_Exception e = true.
Proof.
  intros [Hrun Hana]. run_py.
  destruct push_registry as [reg|]; [destruct (reg =? "")%string|]; simpl.
  2:{ destruct (PyStr.rsplit_last "/" r) as [[a b]|]; simpl.
      - destruct password as [p|]; simpl.
        + destruct (run_command _ _) as [e0|out] eqn:E; simpl.
          * intros H; injection H as <-. eapply Hrun; exact E.
          * destruct (image_analysis _ _ _ _ _ _) as [ex|id] eqn:Ea; simpl;
              [intros H; injection H as <-; eapply Hana; exact Ea | discriminate].
        + intros H; injection H as <-. reflexivity.
      - intros H; injection H as <-. reflexivity. }
  all: destruct (image_analysis _ _ _ _ _ _) as [ex|id] eqn:Ea; simpl;
    [intros H; injection H as <-; eapply Hana; exact Ea | discriminate].
Qed.

(** With such collaborators no iteration of the worker's loop lets an
    exception out. *)
Lemma body_returns r push_registry user password n w :
  raise_exceptions_only run_command image_analysis ->
  fst (body r push_registry user password n w) = Ret tt.
Proof.
  intros Henv. unfold submitter_body, bind, log, emit. simpl.
  destruct (do_analyze_image _ _ _ _ _ _ _) as [[id|e] w'] eqn:E; [reflexivity|].
  assert (is_Exception e = true) as ->; [|reflexivity].
  eapply do_analyze_image_raises; [exact Henv | rewrite E; reflexivity].
Qed.

(** And the worker takes every reference of the queue in hand, then
    waits in [queue.get()]. *)
Lemma submitter_drains push_registry user password n :
  raise_exceptions_only run_command image_analysis ->
  forall w,
    fst (submitter (S (List.length (queue w))) push_registry user password n w) = Blocked /\
    queue (snd (submitter (S (List.length (queue w))) push_registry user password n w)) = [].
Proof.
  intros Henv w. remember (List.length (queue w)) as k eqn:Hk.
  revert w Hk; induction k as [|k IH]; intros w Hk.
  - destruct (queue w) eqn:E; [|discriminate]. simpl. rewrite E. auto.
  - destruct (queue w) as [|r rest] eqn:E; [discriminate|].
    cbn [_submitter]. rewrite E.
    pose proof (body_returns r push_registry user password n
                  (mkWorld rest (trace w) (tick w)) Henv) as Hret.
    pose proof (body_frame r push_registry user password n
                  (mkWorld rest (trace w) (tick w))) as [Hq _].
    destruct (body _ _ _ _ _ _) as [[u|e] w']; simpl in Hret, Hq; [|discriminate].
    apply IH. rewrite Hq. simpl in Hk. congruence.
Qed.

End WorkerFacts.

(** C5 as specified fails: with the password [*] the recorded
    text is the command with [***] in place of the password, and the
    password occurs in it. *)
Lemma C5_mask_contains_password :
  In (Log DEBUG "Running: %s"
          [VStr "skopeo copy --dest-creds=bot:*** docker://reg/app:1 docker://quay.io/org/app:1"])
     (new_events (_push_image "skopeo" run_ok "reg/app:1" "quay.io/org" (Some "bot") (Some "*")
                              true true) world0) /\
  "*" <> "" /\
  PyStr.contains "*"
    "skopeo copy --dest-creds=bot:*** docker://reg/app:1 docker://quay.io/org/app:1" = true.
Proof.
  split; [|split].
  - vm_compute. right. right. left. reflexivity.
  - discriminate.
  - vm_compute. reflexivity.
Qed.

(** C5 at the password [s3cret]. *)
Lemma C5_redacted_command_hides_password_witness :
  "s3cret" <> "" /\
  PyStr.has_char "*" "s3cret" = false /\
  PyStr.contains "s3cret"
    "skopeo copy --dest-creds=bot:*** docker://reg/app:1 docker://quay.io/org/app:1" = false.
Proof.
  assert ("s3cret" <> "") as Hp by discriminate.
  split; [exact Hp | split; [reflexivity|]].
  refine (proj2 (C5_redacted_command_hides_password "skopeo" run_ok "reg/app:1" "quay.io/org"
                   (Some "bot") "s3cret" true true world0 _ Hp eq_refl _)).
  vm_compute. right. right. left. reflexivity.
Defined.

(** C8, at a relocation without credentials: [_push_image] raises
    [TypeError] at the [Running: %s] log call and never runs the copy
    command, although the command would have succeeded. *)
Theorem C8_push_without_credentials_raises :
  fst (_push_image "skopeo" run_ok "registry.local/ns/app:latest" "quay.io/thoth" None None
                   true true world0)
  = Raise (TypeError "replace() argument 1 must be str, not None") /\
  commands (new_events (_push_image "skopeo" run_ok "registry.local/ns/app:latest"
                                    "quay.io/thoth" None None true true) world0) = [] /\
  submitted (new_events (submitter_body "skopeo" run_ok analysis_ok
                                        "registry.local/ns/app:latest" (Some "quay.io/thoth")
                                        None None false) world0) = [].
Proof. vm_compute. auto. Qed.

(** A relocation with credentials and an unverified source: the command
    run and the command logged. *)
Example push_image_command :
  _push_image "skopeo" run_ok "reg/ns/app:1" "quay.io/org" (Some "bot") (Some "pw")
              false true world0
  = (Ret "quay.io/org/app:1",
     mkWorld []
       [PushImage "reg/ns/app:1" "quay.io/org" (Some "bot") (Some "pw") false true;
        Log DEBUG "Pushing image %r from %r to registry %r, output is %r"
            [VStr "app:1"; VStr "reg/ns/app:1"; VStr "quay.io/org"; VStr "quay.io/org/app:1"];
        Log DEBUG "Running: %s"
            [VStr ("skopeo copy --src-tls-verify=false --dest-creds=bot:*** "
                   ++ "docker://reg/ns/app:1 docker://quay.io/org/app:1")];
        RunCommand ("skopeo copy --src-tls-verify=false --dest-creds=bot:pw "
                    ++ "docker://reg/ns/app:1 docker://quay.io/org/app:1");
        Log DEBUG ("%s stdout:" ++ nl ++ "%s" ++ nl ++ "%s") [VStr "skopeo"; VStr ""; VStr ""]]
       1).
Proof. vm_compute. reflexivity. Qed.

(** C3 at a reference of three segments, without and with a push
    registry. *)
Lemma C3_submitted_reference_witness :
  submitted (new_events (submitter_body "skopeo" run_ok analysis_ok "registry.local/ns/app:latest"
                                        None None None false) world0)
  = ["registry.local/ns/app:latest"] /\
  submitted (new_events (submitter_body "skopeo" run_ok analysis_ok "registry.local/ns/app:latest"
                                        (Some "quay.io/thoth") (Some "bot") (Some "pw") false)
                        world0)
  = ["quay.io/thoth/app:latest"].
Proof.
  split.
  - exact (proj1 (C3_submitted_reference "skopeo" run_ok analysis_ok
                    "registry.local/ns/app:latest" None None None false world0) eq_refl).
  - refine (proj2 (proj2 (C3_submitted_reference "skopeo" run_ok analysis_ok
                            "registry.local/ns/app:latest" (Some "quay.io/thoth") (Some "bot")
                            (Some "pw") false world0))
                  "quay.io/thoth" "registry.local/ns" "app:latest" "pw" ("", "")
                  eq_refl _ eq_refl eq_refl eq_refl eq_refl).
    discriminate.
Defined.

(** C10 at [no_registry_tls_verify = True]: the submission is made with
    [verify_tls = False]. *)
Lemma C10_tls_flags_agree_witness :
  In (ImageAnalysis "quay.io/thoth/app:latest" (Some "bot") (Some "pw") false true)
     (new_events (submitter_body "skopeo" run_ok analysis_ok "registry.local/ns/app:latest"
                                 (Some "quay.io/thoth") (Some "bot") (Some "pw") true) world0) /\
  false = negb true.
Proof.
  assert (In (ImageAnalysis "quay.io/thoth/app:latest" (Some "bot") (Some "pw") false true)
             (new_events (submitter_body "skopeo" run_ok analysis_ok
                                         "registry.local/ns/app:latest"
                                         (Some "quay.io/thoth") (Some "bot") (Some "pw") true)
                         world0)) as H
      by (vm_compute; do 9 (try (left; reflexivity); right); contradiction).
  split; [exact H|].
  exact (C10_tls_flags_agree "skopeo" run_ok analysis_ok "registry.local/ns/app:latest"
           (Some "quay.io/thoth") (Some "bot") (Some "pw") true world0 _ H).
Defined.

(** C6 at a queue of two references whose copy fails: the second is
    taken in hand after the failure of the first is recorded. *)
Lemma C6_item_failure_is_isolated_witness :
  let w := mkWorld ["reg/a:1"; "reg/b:1"] [] 0 in
  let run :=
    _do_analyze_image "skopeo" run_fails analysis_ok "reg/a:1" (Some "quay.io/thoth")
                      None (Some "pw") true true
                      (mkWorld ["reg/b:1"] [Log INFO "Handling analysis of image %r" [VStr "reg/a:1"]] 0) in
  fst run = Raise (ExternalError "copy failed") /\
  is_Exception (ExternalError "copy failed") = true /\
  exists evs,
    trace (snd (_submitter "skopeo" run_fails analysis_ok 2 (Some "quay.io/thoth") None
                           (Some "pw") false w))
    = (trace (snd run)
       ++ [Log ERROR "Failed to submit image %r for analysis to Thoth: %s"
               [VStr "reg/a:1"; VStr "copy failed"]]
       ++ Log INFO "Handling analysis of image %r" [VStr "reg/b:1"] :: evs)%list.
Proof.
  intros w run. split; [reflexivity | split; [reflexivity|]].
  destruct (C6_item_failure_is_isolated "skopeo" run_fails analysis_ok 0
              (Some "quay.io/thoth") None (Some "pw") false w "reg/a:1" ["reg/b:1"]
              (ExternalError "copy failed") (snd run) eq_refl eq_refl eq_refl)
    as [_ [_ [_ H]]].
  destruct (H "reg/b:1" [] eq_refl) as [evs Hevs].
  exists evs. rewrite Hevs. reflexivity.
Defined.

(** ** The event producer *)

Lemma event_loop_queue (events : list build) (w : world) :
  queue (snd (event_loop events w))
  = (queue w ++ map status_outputDockerImageReference (filter is_complete events))%list.
Proof.
  revert w; induction events as [|ev rest IH]; intros w; simpl.
  - now rewrite app_nil_r.
  - unfold is_complete, phase_not_complete.
    destruct (status_phase ev) as [p|]; [destruct (p =? "Complete")%string|]; simpl;
      unfold bind, log, emit, queue_put; simpl; rewrite IH; simpl;
      rewrite <- ?app_assoc; reflexivity.
Qed.

(** C4. An event whose phase is not [Complete] leaves the queue as it is
    and the loop goes on with the next event; an event whose phase is
    [Complete] appends the build's output image reference, once, and the
    loop goes on; over a whole stream the queue receives exactly the
    output references of the [Complete] events, in order. *)
Theorem C4_only_complete_builds_are_queued (events : list build) (w : world) :
  (forall ev rest,
      status_phase ev <> Some "Complete" ->
      exists w1, event_loop (ev :: rest) w = event_loop rest w1 /\ queue w1 = queue w) /\
  (forall ev rest,
      status_phase ev = Some "Complete" ->
      exists w1, event_loop (ev :: rest) w = event_loop rest w1 /\
                 queue w1 = (queue w ++ [status_outputDockerImageReference ev])%list) /\
  queue (snd (_event_producer events w))
  = (queue w ++ map status_outputDockerImageReference (filter is_complete events))%list.
Proof.
  split; [|split].
  - intros ev rest Hph. simpl.
    assert (phase_not_complete (status_phase ev) = true) as ->.
    { unfold phase_not_complete. destruct (status_phase ev) as [p|]; [|reflexivity].
      destruct (String.eqb_spec p "Complete"); [congruence | reflexivity]. }
    unfold bind, log, emit. simpl. eexists. split; reflexivity.
  - intros ev rest Hph. simpl. rewrite Hph. simpl.
    unfold bind, log, emit, queue_put. simpl. eexists. split; reflexivity.
  - unfold _event_producer, bind, log, emit. simpl. now rewrite event_loop_queue.
Qed.

(** C4 at a stream of five events, two of them complete. *)
Lemma C4_only_complete_builds_are_queued_witness :
  queue (snd (_event_producer
                [mkBuild "b1" (Some "Running") "reg/ns/app:1";
                 mkBuild "b1" (Some "Complete") "reg/ns/app:1";
                 mkBuild "b2" (Some "Failed") "reg/ns/lib:2";
                 mkBuild "b3" None "reg/ns/web:3";
                 mkBuild "b4" (Some "Complete") "reg/ns/db:4"] world0))
  = ["reg/ns/app:1"; "reg/ns/db:4"].
Proof.
  exact (proj2 (proj2 (C4_only_complete_builds_are_queued
                         [mkBuild "b1" (Some "Running") "reg/ns/app:1";
                          mkBuild "b1" (Some "Complete") "reg/ns/app:1";
                          mkBuild "b2" (Some "Failed") "reg/ns/lib:2";
                          mkBuild "b3" None "reg/ns/web:3";
                          mkBuild "b4" (Some "Complete") "reg/ns/db:4"] world0))).
Defined.

(** ** The supervisor *)

Section SupervisorFacts.

Variable OpenShift_new : exn + string.
Variable is_alive : nat -> Z -> bool.
Variable pid : nat -> Z.

Local Abbreviation cli' := (cli OpenShift_new is_alive pid).
Local Abbreviation poll' := (poll is_alive).

(** The password the workers are started with. *)
Local Abbreviation worker_password o token :=
  (if pass_token o then Some token else registry_password o).

Lemma start_workers_spec n t process_pool st :
  let r := start_workers pid n t process_pool st in
  fst r = (process_pool ++ seq (List.length (started st)) n)%list /\
  started (snd r) = (started st ++ repeat t n)%list /\
  clock (snd r) = clock st.
Proof.
  revert process_pool st; induction n as [|n IH]; intros process_pool st; simpl.
  - now rewrite !app_nil_r.
  - destruct (IH (process_pool ++ [List.length (started st)])%list
                (main_log INFO "Started a new worker with PID: %d"
                          [VInt (pid (List.length (started st)))]
                          (snd (start t st)))) as [Hp [Hs Hc]].
    simpl in *. rewrite Hp, Hs, Hc, length_app, <- !app_assoc. simpl.
    rewrite Nat.add_1_r. auto.
Qed.

(** Once the client is built and the options do not conflict, [cli]
    reaches its liveness loop with the event producer and
    [workers_count] workers started, and polls the workers only. *)
Lemma cli_reaches_poll o token :
  OpenShift_new = inr token ->
  conflict o = false ->
  exists st,
    (forall fuel,
        cli' o fuel = poll' fuel (seq (worker_position o 0) (Z.to_nat (workers_count o))) st) /\
    clock st = 0%Z /\
    started st
    = ((if analyze_existing o then [Existing_producer (build_watcher_namespace o)] else [])
       ++ Event_producer (build_watcher_namespace o)
       :: repeat (Submitter (push_registry o) (registry_user o) (worker_password o token)
                            (no_registry_tls_verify o))
                 (Z.to_nat (workers_count o)))%list.
Proof.
  intros Hos Hc.
  assert ((if pass_token o
           then if PyStr.truthy (registry_password o)
                then inl (ValueError "Flag --pass-token is disjoint with explicit password propagation")
                else inr (Some token)
           else inr (registry_password o))
          = (inr (worker_password o token) : exn + option string)) as Hpw.
  { unfold conflict in Hc. destruct (pass_token o); [|reflexivity].
    simpl in Hc. now rewrite Hc. }
  unfold worker_position, producer_position.
  destruct (verbose o) eqn:Ev, (analyze_existing o) eqn:Ea.
  all: eexists; split;
    [ intros fuel; unfold cli; rewrite Hos, Hpw, Ev, Ea; cbv zeta; unfold start at 1;
      match goal with
      | |- context [start_workers pid ?n ?t ?p ?s] =>
          rewrite (surjective_pairing (start_workers pid n t p s));
          rewrite (proj1 (start_workers_spec n t p s))
      end; reflexivity
    | match goal with
      | |- context [start_workers pid ?n ?t ?p ?s] =>
          destruct (start_workers_spec n t p s) as [_ [Hs Hk]]; rewrite Hs, Hk
      end; split; reflexivity ].
Qed.


(** While every process of the pool answers alive, the loop goes on. *)
Lemma poll_all_alive fuel process_pool st :
  (forall p t, In p process_pool -> is_alive p t = true) ->
  fst (poll' fuel process_pool st) = Running /\
  started (snd (poll' fuel process_pool st)) = started st.
Proof.
  intros Hall. revert st; induction fuel as [|fuel IH]; intros st; simpl; [auto|].
  assert (existsb (fun process => negb (is_alive process (clock st))) process_pool = false)
    as ->.
  { apply not_true_is_false. intros H. apply existsb_exists in H.
    destruct H as [p [Hin Hp]]. rewrite (Hall p _ Hin) in Hp. discriminate. }
  destruct (IH (sleep 5 st)) as [H1 H2]. auto.
Qed.


(** C1 (as amended). With [--pass-token] and a non-empty registry
    password, [cli] dies at start-up: with the [ValueError] of the check
    when the cluster client could be built, with the client's own error
    otherwise. No event producer and no worker has been started by then;
    the existing-image producer has, when [--analyze-existing] is set. *)
Theorem C1_conflict_stops_startup o fuel :
  pass_token o = true ->
  PyStr.truthy (registry_password o) = true ->
  fst (cli' o fuel)
  = Died (match OpenShift_new with
          | inl e => e
          | inr _ => ValueError "Flag --pass-token is disjoint with explicit password propagation"
          end) /\
  started (snd (cli' o fuel))
  = (if analyze_existing o then [Existing_producer (build_watcher_namespace o)] else []) /\
  existsb is_event_producer (started (snd (cli' o fuel))) = false /\
  existsb is_submitter (started (snd (cli' o fuel))) = false.
Proof.
  intros Hp Hpw. unfold cli. rewrite Hp, Hpw.
  destruct OpenShift_new as [e|token], (verbose o), (analyze_existing o); simpl; auto.
Qed.

(** While every worker answers alive, [cli] stays in its liveness loop,
    whatever [is_alive] answers for the event producer. *)
Lemma cli_keeps_polling o token fuel :
  OpenShift_new = inr token ->
  conflict o = false ->
  (forall i t, i < Z.to_nat (workers_count o) -> is_alive (worker_position o i) t = true) ->
  fst (cli' o fuel) = Running /\
  nth_error (started (snd (cli' o fuel))) (producer_position o)
  = Some (Event_producer (build_watcher_namespace o)).
Proof.
  intros Hos Hc Hall.
  destruct (cli_reaches_poll o token Hos Hc) as [st [Hcli [_ Hst]]].
  rewrite Hcli.
  destruct (poll_all_alive fuel (seq (worker_position o 0) (Z.to_nat (workers_count o))) st)
    as [Hrun Hsame].
  - intros p t Hin. apply in_seq in Hin. unfold worker_position in *.
    replace p with (S (producer_position o + (p - S (producer_position o)))) by lia.
    apply Hall. lia.
  - split; [exact Hrun|]. rewrite Hsame, Hst. unfold producer_position.
    destruct (analyze_existing o); reflexivity.
Qed.

(** C2 (as amended). The liveness loop of [cli] samples the workers
    only: while every worker answers alive it keeps polling, whether the
    event producer, which was started, is alive or not. *)
Theorem C2_poll_ignores_event_producer o token fuel :
  OpenShift_new = inr token ->
  conflict o = false ->
  (forall i t, i < Z.to_nat (workers_count o) -> is_alive (worker_position o i) t = true) ->
  fst (cli' o fuel) = Running /\
  (forall child, exit_status (fst (cli' o fuel)) child = None) /\
  nth_error (started (snd (cli' o fuel))) (producer_position o)
  = Some (Event_producer (build_watcher_namespace o)).
Proof.
  intros Hos Hc Hall.
  destruct (cli_keeps_polling o token fuel Hos Hc Hall) as [H1 H2].
  rewrite H1. repeat split; auto.
Qed.


End SupervisorFacts.

(** C1 as specified fails: with [--analyze-existing] the
    existing-image producer is started before the check raises, and it
    puts the tagged images of the namespace on the queue. *)
Lemma C1_existing_producer_started_before_check :
  conflict conflicting_options = true /\
  (forall fuel,
      fst (cli (inr "token") first_is_dead pid0 conflicting_options fuel)
      = Died (ValueError "Flag --pass-token is disjoint with explicit password propagation") /\
      started (snd (cli (inr "token") first_is_dead pid0 conflicting_options fuel))
      = [Existing_producer "builds"]) /\
  queue (snd (_existing_producer [mkImageStream "app" "reg/builds/app" (Some ["latest"])]
                                 world0))
  = ["reg/builds/app:latest"].
Proof.
  split; [reflexivity | split; [|reflexivity]]. intros fuel. split; reflexivity.
Qed.

(** C1 at options with [--pass-token], a password and
    [--analyze-existing]. *)
Lemma C1_conflict_stops_startup_witness :
  pass_token conflicting_options = true /\
  PyStr.truthy (registry_password conflicting_options) = true /\
  fst (cli (inr "token") first_is_dead pid0 conflicting_options 4)
  = Died (ValueError "Flag --pass-token is disjoint with explicit password propagation") /\
  existsb is_submitter
          (started (snd (cli (inr "token") first_is_dead pid0 conflicting_options 4))) = false.
Proof.
  split; [reflexivity | split; [reflexivity|]].
  pose proof (C1_conflict_stops_startup (inr "token") first_is_dead pid0 conflicting_options 4
                eq_refl eq_refl) as [H1 [_ [_ H2]]].
  split; [exact H1 | exact H2].
Defined.

(** C2 as specified fails: the event producer is dead from the
    start, the one worker is alive, and [cli] polls on for ever. *)
Lemma C2_dead_producer_goes_unnoticed :
  nth_error (started (snd (cli (inr "token") first_is_dead pid0 sample_options 1)))
            0 = Some (Event_producer "builds") /\
  (forall t, first_is_dead 0 t = false) /\
  forall fuel, fst (cli (inr "token") first_is_dead pid0 sample_options fuel) = Running.
Proof.
  split; [reflexivity | split; [reflexivity|]]. intros fuel.
  apply (cli_keeps_polling (inr "token") first_is_dead pid0 sample_options "token" fuel
           eq_refl eq_refl).
  intros i t _. reflexivity.
Qed.

(** C2 at one worker alive and the event producer dead. *)
Lemma C2_poll_ignores_event_producer_witness :
  conflict sample_options = false /\
  (forall i t, i < Z.to_nat (workers_count sample_options) ->
               first_is_dead (worker_position sample_options i) t = true) /\
  fst (cli (inr "token") first_is_dead pid0 sample_options 3) = Running.
Proof.
  assert (forall i t, i < Z.to_nat (workers_count sample_options) ->
                      first_is_dead (worker_position sample_options i) t = true) as Hall
      by (intros i t _; reflexivity).
  split; [reflexivity | split; [exact Hall|]].
  exact (proj1 (C2_poll_ignores_event_producer (inr "token") first_is_dead pid0 sample_options
                  "token" 3 eq_refl eq_refl Hall)).
Defined.


(** The worker dies at 7; the polls at 0 and 5 pass, the poll at 10
    raises. *)
Example cli_dies_at_second_poll :
  let r := cli (inr "token") second_dies_at_7 pid0 sample_options 10 in
  fst r = Died (RuntimeError "One of the processes failed") /\ clock (snd r) = 10%Z.
Proof. vm_compute. auto. Qed.

(** ** The worker pool *)

Module PoolFacts.
Import Pool.

Lemma update_length {A} i (x : A) l : List.length (update i x l) = List.length l.
Proof.
  revert i; induction l as [|a l IH]; intros [|i]; simpl; auto.
Qed.

(** Replacing the slot of one worker moves its reference in or out of the
    references held. *)
Lemma held_update i x y l :
  nth_error l i = Some x ->
  Permutation (slot_items x ++ flat_map slot_items (update i y l))
              (slot_items y ++ flat_map slot_items l).
Proof.
  revert i; induction l as [|a l IH]; intros [|i] H; simpl in *; try discriminate.
  - injection H as ->. apply Permutation_app_swap_app.
  - specialize (IH i H).
    rewrite (Permutation_app_swap_app (slot_items x) (slot_items a)).
    rewrite (Permutation_app_swap_app (slot_items y) (slot_items a)).
    now apply Permutation_app_head.
Qed.

Lemma held_update_length i x y l :
  nth_error l i = Some x ->
  List.length (slot_items x) + List.length (flat_map slot_items (update i y l))
  = List.length (slot_items y) + List.length (flat_map slot_items l).
Proof.
  intros H. apply held_update with (y := y) in H. apply Permutation_length in H.
  now rewrite !length_app in H.
Qed.

(** A step neither loses nor duplicates a reference, and takes exactly
    one unit of weight. *)
Lemma step_conserves a s s' :
  step a s = Some s' ->
  Permutation (everything s') (everything s) /\
  weight s = S (weight s') /\
  List.length (slots s') = List.length (slots s).
Proof.
  unfold everything, weight, held.
  destruct a as [|i|i]; simpl.
  - destruct (to_put s) as [|r rest] eqn:E; [discriminate|].
    intros H; injection H as <-; simpl. split; [|split; [|reflexivity]].
    + apply Permutation_app_head, Permutation_app_head.
      rewrite <- app_assoc. reflexivity.
    + rewrite length_app. simpl. lia.
  - destruct (nth_error (slots s) i) as [[|r0]|] eqn:E; try discriminate.
    destruct (shared s) as [|r rest] eqn:Es; [discriminate|].
    intros H; injection H as <-; simpl. split; [|split].
    + apply Permutation_app_head.
      pose proof (held_update i Idle (Holding r) (slots s) E) as P. simpl in P.
      rewrite P. simpl. apply Permutation_middle.
    + pose proof (held_update_length i Idle (Holding r) (slots s) E) as L.
      simpl in L. lia.
    + apply update_length.
  - destruct (nth_error (slots s) i) as [[|r]|] eqn:E; try discriminate.
    intros H; injection H as <-; simpl. split; [|split].
    + rewrite map_app, <- app_assoc. simpl. apply Permutation_app_head.
      pose proof (held_update i (Holding r) Idle (slots s) E) as P. simpl in P.
      apply (Permutation_app_tail (shared s ++ to_put s)) in P. exact P.
    + pose proof (held_update_length i (Holding r) Idle (slots s) E) as L.
      simpl in L. lia.
    + apply update_length.
Qed.

Lemma run_conserves sched s s' :
  run sched s = Some s' ->
  Permutation (everything s') (everything s) /\
  weight s = List.length sched + weight s' /\
  List.length (slots s') = List.length (slots s).
Proof.
  revert s; induction sched as [|a sched IH]; intros s; simpl.
  - intros H; injection H as <-. auto.
  - destruct (step a s) as [s1|] eqn:E; [|discriminate].
    intros H. apply IH in H. apply step_conserves in E.
    destruct H as [P [W L]], E as [P1 [W1 L1]].
    split; [now rewrite P | split; [lia | congruence]].
Qed.

Lemma held_nil l :
  flat_map slot_items l = [] -> forall i w, nth_error l i = Some w -> w = Idle.
Proof.
  induction l as [|a l IH]; intros H [|i] w Hn; simpl in *; try discriminate.
  - injection Hn as <-. destruct a; [reflexivity | discriminate].
  - apply (IH (proj2 (app_eq_nil _ _ H)) i w Hn).
Qed.

Lemma held_cons l r rest :
  flat_map slot_items l = r :: rest -> exists i r', nth_error l i = Some (Holding r').
Proof.
  induction l as [|a l IH]; simpl; [discriminate|].
  destruct a as [|r0]; simpl.
  - intros H. destruct (IH H) as [i [r' Hi]]. exists (S i), r'. exact Hi.
  - intros _. exists 0, r0. reflexivity.
Qed.

(** With at least one worker, some step is possible as long as a
    reference is left to put, to get or to analyze. *)
Lemma progress s :
  0 < List.length (slots s) ->
  to_put s <> [] \/ shared s <> [] \/ held s <> [] ->
  exists a s', step a s = Some s'.
Proof.
  intros Hn H.
  destruct (to_put s) as [|r rest] eqn:Ep.
  - destruct (held s) as [|h hs] eqn:Eh.
    + destruct (shared s) as [|q qs] eqn:Es; [tauto|].
      destruct (slots s) as [|w ws] eqn:Ew; [simpl in Hn; lia|].
      assert (w = Idle) as -> by
          (unfold held in Eh; rewrite Ew in Eh; apply (held_nil _ Eh 0); reflexivity).
      exists (Get 0). unfold step. rewrite Ew, Es. simpl. eexists; reflexivity.
    + unfold held in Eh. destruct (held_cons _ _ _ Eh) as [i [r' Hi]].
      exists (Analyze i). unfold step. rewrite Hi. eexists; reflexivity.
  - exists Put. unfold step. rewrite Ep. eexists; reflexivity.
Qed.

(** C9 (as amended). With at least one worker and [N] distinct
    references to enqueue, along every interleaving of puts, gets and
    analyses no reference is lost or duplicated; a step is possible as
    long as a reference is left; every run takes [3 N] steps less those
    left; and when no step is possible any more, exactly [N] attempts
    were made, on the [N] references, each in one attempt by one
    worker. *)
Theorem C9_every_reference_attempted_once workers_count refs sched s :
  (1 <= workers_count)%Z ->
  NoDup refs ->
  run sched (init workers_count refs) = Some s ->
  Permutation (everything s) refs /\
  List.length sched + weight s = 3 * List.length refs /\
  (to_put s <> [] \/ shared s <> [] \/ held s <> [] -> exists a s', step a s = Some s') /\
  ((forall a, step a s = None) ->
   Permutation (map snd (attempts s)) refs /\
   List.length (attempts s) = List.length refs /\
   NoDup (map snd (attempts s))).
Proof.
  intros Hw Hnd Hrun.
  destruct (run_conserves _ _ _ Hrun) as [P [W L]].
  assert (0 < List.length (slots s)) as Hn.
  { rewrite L. unfold init. simpl. rewrite repeat_length. lia. }
  assert (everything (init workers_count refs) = refs) as E0.
  { unfold everything, init, held. simpl.
    assert (flat_map slot_items (repeat Idle (Z.to_nat workers_count)) = []) as ->
        by (induction (Z.to_nat workers_count); simpl; auto).
    reflexivity. }
  assert (weight (init workers_count refs) = 3 * List.length refs) as W0.
  { unfold weight, init, held. simpl.
    assert (flat_map slot_items (repeat Idle (Z.to_nat workers_count)) = []) as ->
        by (induction (Z.to_nat workers_count); simpl; auto).
    simpl. lia. }
  rewrite E0 in P. rewrite W0 in W.
  split; [exact P | split; [lia | split; [apply progress; exact Hn|]]].
  intros Hstuck.
  assert (to_put s = [] /\ shared s = [] /\ held s = []) as [Ep [Es Eh]].
  { destruct (to_put s) as [|r rest] eqn:Ep.
    - destruct (shared s) as [|q qs] eqn:Es.
      + destruct (held s) as [|h hs] eqn:Eh; [auto|].
        destruct (progress s Hn) as [a [s' Hs']]; [right; right; congruence|].
        rewrite Hstuck in Hs'. discriminate.
      + destruct (progress s Hn) as [a [s' Hs']]; [right; left; congruence|].
        rewrite Hstuck in Hs'. discriminate.
    - destruct (progress s Hn) as [a [s' Hs']]; [left; congruence|].
      rewrite Hstuck in Hs'. discriminate. }
  unfold everything in P. rewrite Ep, Es, Eh, !app_nil_r in P.
  split; [exact P | split].
  - rewrite <- (length_map snd). now apply Permutation_length.
  - apply (Permutation_NoDup (Permutation_sym P) Hnd).
Qed.

End PoolFacts.

(** C9 as specified fails for a pool of no worker, which [cli]
    accepts: it starts no worker and polls on, the reference is put on
    the queue, and nothing can take it. *)
Lemma C9_no_worker_no_attempt :
  (forall fuel,
      fst (cli (inr "token") first_is_dead pid0 no_worker_options fuel) = Running /\
      started (snd (cli (inr "token") first_is_dead pid0 no_worker_options fuel))
      = [Event_producer "builds"]) /\
  exists s,
    Pool.run [Pool.Put] (Pool.init 0 ["reg/ns/app:1"]) = Some s /\
    (forall a, Pool.step a s = None) /\
    Pool.shared s = ["reg/ns/app:1"] /\
    Pool.attempts s = [].
Proof.
  split.
  - intros fuel.
    destruct (cli_reaches_poll (inr "token") first_is_dead pid0 no_worker_options "token"
                eq_refl eq_refl) as [st [Hcli [_ Hst]]].
    rewrite Hcli.
    destruct (poll_all_alive first_is_dead fuel
                (seq (worker_position no_worker_options 0)
                     (Z.to_nat (workers_count no_worker_options))) st) as [H1 H2].
    + intros p t []. 
    + rewrite H1, H2, Hst. split; reflexivity.
  - eexists. split; [reflexivity|]. split; [|split; reflexivity].
    intros [|i|i]; simpl; auto; destruct i; reflexivity.
Qed.

(** C9 at two workers and two references, the second worker getting the
    first reference. *)
Lemma C9_every_reference_attempted_once_witness :
  (1 <= 2)%Z /\
  NoDup ["reg/a:1"; "reg/b:1"] /\
  Pool.run [Pool.Put; Pool.Get 1; Pool.Put; Pool.Get 0; Pool.Analyze 0; Pool.Analyze 1]
           (Pool.init 2 ["reg/a:1"; "reg/b:1"])
  = Some (Pool.mkSys [] [] [Pool.Idle; Pool.Idle] [(0, "reg/b:1"); (1, "reg/a:1")]) /\
  Permutation
    (Pool.everything (Pool.mkSys [] [] [Pool.Idle; Pool.Idle] [(0, "reg/b:1"); (1, "reg/a:1")]))
    ["reg/a:1"; "reg/b:1"].
Proof.
  assert (NoDup ["reg/a:1"; "reg/b:1"]) as Hnd.
  { constructor; [simpl; intros [H|[]]; discriminate H|].
    constructor; [simpl; tauto | constructor]. }
  assert (1 <= 2)%Z as Hw by (intros H; discriminate H).
  split; [exact Hw | split; [exact Hnd | split; [reflexivity|]]].
  exact (proj1 (PoolFacts.C9_every_reference_attempted_once 2 ["reg/a:1"; "reg/b:1"]
                  [Pool.Put; Pool.Get 1; Pool.Put; Pool.Get 0; Pool.Analyze 0; Pool.Analyze 1]
                  _ Hw Hnd eq_refl)).
Defined.

(** * Further properties of the program *)

(** ** The producers *)

Lemma world_eta (w : world) : mkWorld (queue w) (trace w) (tick w) = w.
Proof. destruct w; reflexivity. Qed.

Lemma tag_loop_result repository tag_infos w :
  tag_loop repository tag_infos w
  = (Ret tt,
     mkWorld (queue w ++ map (fun tag => (repository ++ ":" ++ tag)%string) tag_infos)%list
             (trace w
              ++ map (fun r => Log INFO "Queueing already existing image %r for analysis"
                                   [VStr r])
                     (map (fun tag => (repository ++ ":" ++ tag)%string) tag_infos))%list
             (tick w)).
Proof.
  revert w; induction tag_infos as [|tag rest IH]; intros w; simpl.
  - now rewrite !app_nil_r, world_eta.
  - unfold bind, log, emit, queue_put. simpl. rewrite IH. simpl.
    now rewrite <- !app_assoc.
Qed.

Lemma stream_loop_result items w :
  stream_loop items w
  = (Ret tt,
     mkWorld (queue w ++ existing_references items)%list
             (trace w ++ flat_map stream_events items)%list
             (tick w)).
Proof.
  revert w; induction items as [|item rest IH]; intros w; simpl.
  - now rewrite !app_nil_r, world_eta.
  - unfold bind, log, emit. simpl. rewrite tag_loop_result. simpl. rewrite IH. simpl.
    unfold stream_references. now rewrite <- !app_assoc.
Qed.

(** What [_existing_producer] does, in full. *)
Lemma existing_producer_result items w :
  _existing_producer items w
  = (Ret tt,
     mkWorld (queue w ++ existing_references items)%list
             (trace w ++ flat_map stream_events items
              ++ [Log INFO
                      "Queuing existing images for analyses has finished, all of them were scheduled for analysis"
                      []])%list
             (tick w)).
Proof.
  unfold _existing_producer, bind, log, emit. rewrite stream_loop_result. simpl.
  now rewrite <- app_assoc.
Qed.

Lemma event_loop_result events w :
  event_loop events w
  = (Ret tt,
     mkWorld (queue w ++ map status_outputDockerImageReference (filter is_complete events))%list
             (trace w ++ map build_event events)%list
             (tick w)).
Proof.
  revert w; induction events as [|ev rest IH]; intros w; simpl.
  - now rewrite !app_nil_r, world_eta.
  - unfold build_event, is_complete, phase_not_complete.
    destruct (status_phase ev) as [p|]; [destruct (p =? "Complete")%string|]; simpl;
      unfold bind, log, emit, queue_put; simpl; rewrite IH; simpl;
      now rewrite <- !app_assoc.
Qed.

(** What [_event_producer] does, in full. *)
Lemma event_producer_result events w :
  _event_producer events w
  = (Ret tt,
     mkWorld (queue w ++ map status_outputDockerImageReference (filter is_complete events))%list
             (trace w ++ Log INFO "Starting event producer" [] :: map build_event events)%list
             (tick w)).
Proof.
  unfold _event_producer, bind, log, emit. simpl. rewrite event_loop_result. simpl.
  now rewrite <- app_assoc.
Qed.

Lemma new_events_of {A} (m : M A) (w : world) (r : outcome A) q evs t :
  m w = (r, mkWorld q (trace w ++ evs)%list t) -> new_events m w = evs.
Proof. intros H. unfold new_events. rewrite H. simpl. apply skipn_app_length. Qed.

Lemma only_logs evs :
  forallb is_log evs = true ->
  commands evs = [] /\ submitted evs = [] /\ relocations evs = [].
Proof.
  induction evs as [|ev evs IH]; simpl; [auto|].
  destruct ev; simpl; try discriminate; exact IH.
Qed.

Lemma forallb_is_log_map {A} (f : A -> event) l :
  (forall a, is_log (f a) = true) -> forallb is_log (map f l) = true.
Proof. intros H. induction l as [|a l IH]; simpl; [reflexivity | now rewrite H, IH]. Qed.

Lemma existing_events_are_logs items : forallb is_log (flat_map stream_events items) = true.
Proof.
  induction items as [|item rest IH]; simpl; [reflexivity|].
  rewrite forallb_app, IH, andb_true_r. now apply forallb_is_log_map.
Qed.

Lemma announced_app l1 l2 : announced (l1 ++ l2)%list = (announced l1 ++ announced l2)%list.
Proof.
  induction l1 as [|ev l1 IH]; simpl; [reflexivity|].
  destruct ev as [[| |] fmt [|[r|z|] args]| | |]; simpl; now rewrite ?IH.
Qed.

(** X1. [_existing_producer] appends to the queue one reference
    [repository:tag] for every tag of every image stream, in listing
    order, and nothing else; image streams without tags add nothing. *)
Theorem existing_producer_enqueues_every_tag items w :
  queue (snd (_existing_producer items w)) = (queue w ++ existing_references items)%list /\
  List.length (queue (snd (_existing_producer items w)))
  = List.length (queue w)
    + list_sum (map (fun item => match tags item with
                                 | Some l => List.length l
                                 | None => 0
                                 end) items) /\
  ((forall item, In item items -> tags item = None \/ tags item = Some []) ->
   queue (snd (_existing_producer items w)) = queue w).
Proof.
  rewrite existing_producer_result. simpl. split; [reflexivity | split].
  - rewrite length_app. f_equal.
    induction items as [|item rest IH]; simpl; [reflexivity|].
    rewrite length_app, IH. f_equal. unfold stream_references. rewrite length_map.
    destruct (tags item); reflexivity.
  - intros H. assert (existing_references items = []) as ->; [|apply app_nil_r].
    induction items as [|item rest IH]; simpl; [reflexivity|].
    rewrite IH by (intros i Hi; apply H; now right).
    unfold stream_references. destruct (H item (or_introl eq_refl)) as [-> | ->]; reflexivity.
Qed.

(** X2. The two producers only log and put: they run no command, submit
    nothing, answer no call of a collaborator, and leave what is on the
    queue in place, ahead of what they add. *)
Theorem producers_only_put_and_log items events w :
  let w1 := snd (_existing_producer items w) in
  let w2 := snd (_event_producer events w) in
  (tick w1 = tick w /\ firstn (List.length (queue w)) (queue w1) = queue w /\
   commands (new_events (_existing_producer items) w) = [] /\
   submitted (new_events (_existing_producer items) w) = []) /\
  (tick w2 = tick w /\ firstn (List.length (queue w)) (queue w2) = queue w /\
   commands (new_events (_event_producer events) w) = [] /\
   submitted (new_events (_event_producer events) w) = []).
Proof.
  assert (forall (l l' : list string), firstn (List.length l) (l ++ l') = l) as Hfirst.
  { intros l l'. rewrite firstn_app, Nat.sub_diag, firstn_all. simpl. apply app_nil_r. }
  split.
  - rewrite (new_events_of _ _ _ _ _ _ (existing_producer_result items w)).
    rewrite existing_producer_result. simpl.
    destruct (only_logs (flat_map stream_events items
                         ++ [Log INFO
                                 "Queuing existing images for analyses has finished, all of them were scheduled for analysis"
                                 []])) as [H1 [H2 _]].
    { rewrite forallb_app, existing_events_are_logs. reflexivity. }
    auto.
  - rewrite (new_events_of _ _ _ _ _ _ (event_producer_result events w)).
    rewrite event_producer_result. simpl.
    destruct (only_logs (map build_event events)) as [H1 [H2 _]].
    { apply forallb_is_log_map. intros ev. unfold build_event.
      destruct (phase_not_complete _); reflexivity. }
    auto.
Qed.

(** X3. What a producer announces at INFO level is what it puts on the
    queue, reference for reference and in the same order. *)
Theorem producers_announce_what_they_enqueue items events w :
  announced (new_events (_existing_producer items) w) = existing_references items /\
  announced (new_events (_event_producer events) w)
  = map status_outputDockerImageReference (filter is_complete events).
Proof.
  split.
  - rewrite (new_events_of _ _ _ _ _ _ (existing_producer_result items w)).
    rewrite announced_app. simpl. rewrite app_nil_r.
    induction items as [|item rest IH]; simpl; [reflexivity|].
    rewrite announced_app, IH. f_equal.
    induction (stream_references item) as [|r l IHl]; simpl; [reflexivity | now rewrite IHl].
  - rewrite (new_events_of _ _ _ _ _ _ (event_producer_result events w)). simpl.
    induction events as [|ev rest IH]; simpl; [reflexivity|].
    unfold build_event at 1, is_complete at 1, phase_not_complete.
    destruct (status_phase ev) as [p|]; [destruct (p =? "Complete")%string|]; simpl;
      now rewrite IH.
Qed.

(** ** The worker, further *)

Lemma handled_app l1 l2 : handled (l1 ++ l2)%list = (handled l1 ++ handled l2)%list.
Proof.
  induction l1 as [|ev l1 IH]; simpl; [reflexivity|].
  destruct ev as [[| |] fmt [|[r|z|] [|a args]]| | |]; simpl; rewrite ?IH; try reflexivity.
  destruct (fmt =? "Handling analysis of image %r")%string; simpl; now rewrite ?IH.
Qed.

Module ReplaceMore.
Import PyStr.

(** [str.replace] returns the string itself when the pattern does not
    occur in it. *)
Lemma replace_from_absent (p new s : string) :
  contains p s = false -> replace_from p new s = s.
Proof.
  funelim (replace_from p new s); intros Hc.
  - reflexivity.
  - simpl in Hc. rewrite Heq in Hc. discriminate.
  - simpl in Hc. apply orb_false_iff in Hc. destruct Hc as [_ Hc].
    now rewrite (H Hc).
Qed.

Lemma replace_absent (p new s : string) :
  p <> "" -> contains p s = false -> replace p new s = s.
Proof.
  intros Hp Hc. unfold replace. destruct (String.eqb_spec p ""); [congruence|].
  now apply replace_from_absent.
Qed.

End ReplaceMore.

Section WorkerMore.

Variable skopeo : string.
Variable run_command : nat -> string -> exn + (string * string).
Variable image_analysis :
  nat -> string -> option string -> option string -> bool -> bool -> exn + string.

Local Abbreviation push_image := (_push_image skopeo run_command).
Local Abbreviation do_analyze_image := (_do_analyze_image skopeo run_command image_analysis).
Local Abbreviation body := (submitter_body skopeo run_command image_analysis).
Local Abbreviation submitter := (_submitter skopeo run_command image_analysis).

(** [_push_image] by cases: no slash in the image, no password, the copy
    command raising, the copy command returning. *)
Lemma push_image_cases image push_registry user password src dst w :
  push_image image push_registry user password src dst w
  = let entered := PushImage image push_registry user password src dst in
    match PyStr.rsplit_last "/" image with
    | None =>
        (Raise (IndexError "list index out of range"),
         mkWorld (queue w) (trace w ++ [entered])%list (tick w))
    | Some (_, image_name) =>
        let output := push_registry ++ "/" ++ image_name in
        let cmd := copy_command skopeo image push_registry image_name user password src dst in
        let pushing := Log DEBUG "Pushing image %r from %r to registry %r, output is %r"
                           [VStr image_name; VStr image; VStr push_registry; VStr output] in
        match password with
        | None =>
            (Raise (TypeError "replace() argument 1 must be str, not None"),
             mkWorld (queue w) (trace w ++ [entered; pushing])%list (tick w))
        | Some p =>
            let running := Log DEBUG "Running: %s" [VStr (PyStr.replace p "***" cmd)] in
            match run_command (tick w) cmd with
            | inl e =>
                (Raise e,
                 mkWorld (queue w) (trace w ++ [entered; pushing; running; RunCommand cmd])%list
                         (S (tick w)))
            | inr command =>
                (Ret output,
                 mkWorld (queue w)
                         (trace w ++ [entered; pushing; running; RunCommand cmd;
                                      Log DEBUG ("%s stdout:" ++ nl ++ "%s" ++ nl ++ "%s")
                                          [VStr skopeo; VStr (fst command);
                                           VStr (snd command)]])%list
                         (S (tick w)))
            end
        end
    end.
Proof.
  run_py. destruct (PyStr.rsplit_last "/" image) as [[a b]|]; simpl; [|reflexivity].
  destruct password as [p|]; simpl; [|now rewrite <- !app_assoc].
  destruct (run_command _ _); simpl; now rewrite <- !app_assoc.
Qed.

(** X4. [_push_image] returns exactly when the image has a slash, a
    password is given and the copy command returns; it then returns the
    push registry, a slash and the last segment of the image. *)
Theorem push_image_returns_iff image push_registry user password src dst w output :
  fst (push_image image push_registry user password src dst w) = Ret output <->
  exists a b p command,
    image = a ++ "/" ++ b /\ PyStr.has_char "/" b = false /\
    password = Some p /\
    run_command (tick w) (copy_command skopeo image push_registry b user password src dst)
    = inr command /\
    output = push_registry ++ "/" ++ b.
Proof.
  rewrite push_image_cases. cbv zeta. split.
  - destruct (PyStr.rsplit_last "/" image) as [[a b]|] eqn:E; simpl; [|discriminate].
    apply PyStrFacts.rsplit_last_some in E. destruct E as [E Hb].
    destruct password as [p|]; simpl; [|discriminate].
    destruct (run_command _ _) as [e|command] eqn:Er; simpl; [discriminate|].
    intros H; injection H as <-. exists a, b, p, command. auto.
  - intros [a [b [p [command [Hi [Hb [-> [Hr ->]]]]]]]].
    assert (PyStr.rsplit_last "/" image = Some (a, b)) as ->
        by (apply PyStrFacts.rsplit_last_some; split; assumption).
    simpl. rewrite Hr. reflexivity.
Qed.

(** X5. The destination keeps the last segment of the image only: two
    images that differ in what precedes their last slash are relocated
    to the same destination reference. *)
Theorem push_image_keeps_last_segment_only
        a a' b push_registry user user' password password' src src' dst dst' w w' output output' :
  PyStr.has_char "/" b = false ->
  fst (push_image (a ++ "/" ++ b) push_registry user password src dst w) = Ret output ->
  fst (push_image (a' ++ "/" ++ b) push_registry user' password' src' dst' w') = Ret output' ->
  output = push_registry ++ "/" ++ b /\ output' = output.
Proof.
  intros Hb. rewrite !push_image_cases. cbv zeta.
  assert (forall x, PyStr.rsplit_last "/" (x ++ "/" ++ b) = Some (x, b)) as E
      by (intros x; apply PyStrFacts.rsplit_last_some; split; [reflexivity | exact Hb]).
  rewrite !E.
  destruct password as [p|]; simpl; [|discriminate].
  destruct (run_command (tick w) _); simpl; [discriminate|].
  destruct password' as [p'|]; simpl; [|discriminate].
  destruct (run_command (tick w') _); simpl; [discriminate|].
  intros H H'. injection H as <-. injection H' as <-. auto.
Qed.

(** X6. Without a registry user the password is not part of the copy
    command: the commands run do not depend on it. *)
Theorem password_without_user_is_not_in_command image push_registry user p p' src dst w :
  PyStr.truthy user = false ->
  commands (new_events (push_image image push_registry user (Some p) src dst) w)
  = commands (new_events (push_image image push_registry user (Some p') src dst) w).
Proof.
  intros Hu. unfold new_events. rewrite !push_image_cases. cbv zeta.
  destruct (PyStr.rsplit_last "/" image) as [[a b]|]; simpl;
    [|rewrite !skipn_app_length; reflexivity].
  assert (copy_command skopeo image push_registry b user (Some p) src dst
          = copy_command skopeo image push_registry b user (Some p') src dst) as ->.
  { unfold copy_command, copy_flags, if_truthy. destruct user as [u|]; [|reflexivity].
    simpl in Hu. destruct (u =? "")%string; [reflexivity | discriminate]. }
  destruct (run_command _ _); simpl; rewrite !skipn_app_length; reflexivity.
Qed.

(** X7. When the password does not occur in the copy command, the text
    logged is the command that is run. *)
Theorem log_shows_command_without_password image push_registry user p src dst w shown cmd :
  p <> "" ->
  In (Log DEBUG "Running: %s" [VStr shown])
     (new_events (push_image image push_registry user (Some p) src dst) w) ->
  In cmd (commands (new_events (push_image image push_registry user (Some p) src dst) w)) ->
  PyStr.contains p cmd = false ->
  shown = cmd.
Proof.
  intros Hp. unfold new_events. rewrite push_image_cases. cbv zeta.
  destruct (PyStr.rsplit_last "/" image) as [[a b]|]; simpl.
  - destruct (run_command _ _); simpl; rewrite !skipn_app_length; simpl;
      intros Hs Hc Hn; pick_event Hs; pick_event Hc; subst cmd;
      injection Hs as <-; now apply ReplaceMore.replace_absent.
  - rewrite skipn_app_length. simpl. intros Hs. pick_event Hs.
Qed.

(** X8. Whatever [_do_analyze_image] submits, it submits with the
    registry user and password it was given, unchanged, with the
    destination TLS flag, and without waiting for the analysis. *)
Theorem submission_carries_credentials r push_registry user password src dst w
        image u p verify_tls nowait :
  In (ImageAnalysis image u p verify_tls nowait)
     (new_events (do_analyze_image r push_registry user password src dst) w) ->
  u = user /\ p = password /\ verify_tls = dst /\ nowait = true.
Proof.
  intros H. run_py.
  destruct push_registry as [reg|]; [destruct (reg =? "")%string|]; simpl in *.
  2:{ destruct (PyStr.rsplit_last "/" r) as [[a b]|]; simpl in *.
      - destruct password as [pw|]; simpl in *.
        + destruct (run_command _ _) as [e|out]; simpl in *.
          * new_trace; pick_event H.
          * destruct (image_analysis _ _ _ _ _ _) as [ex|id]; simpl in *; new_trace;
              pick_event H; injection H as <- <- <- <- <-; auto.
        + new_trace; pick_event H.
      - new_trace; pick_event H. }
  all: destruct (image_analysis _ _ _ _ _ _) as [ex|id]; simpl in *; new_trace;
    pick_event H; injection H as <- <- <- <- <-; auto.
Qed.

(** X9. With no push registry, the empty string counting as none,
    [_do_analyze_image] does not enter [_push_image] and runs no command:
    its first and only call is the submission of the reference as it is,
    and it returns what that call returns and raises what it raises. *)
Theorem no_push_registry_no_relocation r push_registry user password src dst w :
  PyStr.truthy push_registry = false ->
  relocations (new_events (do_analyze_image r push_registry user password src dst) w) = [] /\
  commands (new_events (do_analyze_image r push_registry user password src dst) w) = [] /\
  fst (do_analyze_image r push_registry user password src dst w)
  = match image_analysis (tick w) r user password dst true with
    | inl e => Raise e
    | inr analysis_id => Ret analysis_id
    end.
Proof.
  intros Hf.
  assert (do_analyze_image r push_registry user password src dst
          = do_analyze_image r None user password src dst) as ->.
  { destruct push_registry as [reg|]; [|reflexivity]. simpl in Hf.
    unfold _do_analyze_image, if_truthy.
    destruct (reg =? "")%string; [reflexivity | discriminate]. }
  run_py. destruct (image_analysis _ _ _ _ _ _) as [ex|id]; simpl; new_trace; auto.
Qed.

(** X10. With a push registry, a reference is submitted only after the
    copy command was run, once, and returned: a relocation that fails, for
    whatever reason, is followed by no submission. *)
Theorem submission_follows_successful_copy r push_registry user password src dst w :
  PyStr.truthy push_registry = true ->
  submitted (new_events (do_analyze_image r push_registry user password src dst) w) <> [] ->
  exists cmd command,
    commands (new_events (do_analyze_image r push_registry user password src dst) w) = [cmd] /\
    run_command (tick w) cmd = inr command.
Proof.
  intros Ht H. run_py.
  destruct push_registry as [reg|]; [|discriminate].
  simpl in Ht. destruct (reg =? "")%string; [discriminate|]. simpl in *.
  destruct (PyStr.rsplit_last "/" r) as [[a b]|]; simpl in *.
  - destruct password as [pw|]; simpl in *.
    + destruct (run_command _ _) as [e|out] eqn:Er; simpl in *.
      * new_trace. congruence.
      * eexists. exists out. split; [|exact Er].
        destruct (image_analysis _ _ _ _ _ _) as [ex|id]; simpl in *; new_trace; reflexivity.
    + new_trace. congruence.
  - new_trace. congruence.
Qed.

(** The events of one iteration of the worker's loop report one
    reference taken in hand: the one dequeued. *)
Lemma body_handled r push_registry user password n w :
  let w' := snd (body r push_registry user password n w) in
  queue w' = queue w /\
  exists evs, trace w' = (trace w ++ evs)%list /\ handled evs = [r].
Proof.
  run_py.
  destruct push_registry as [reg|]; [destruct (reg =? "")%string|]; simpl.
  2:{ destruct (PyStr.rsplit_last "/" r) as [[a b]|]; simpl.
      - destruct password as [pw|]; simpl.
        + destruct (run_command _ _) as [e|out]; simpl.
          * destruct (is_Exception e); simpl; (split; [reflexivity|]);
              repeat rewrite <- app_assoc; eexists; (split; [reflexivity|]); reflexivity.
          * destruct (image_analysis _ _ _ _ _ _) as [ex|id]; simpl;
              try destruct (is_Exception ex); simpl; (split; [reflexivity|]);
              repeat rewrite <- app_assoc; eexists; (split; [reflexivity|]); reflexivity.
        + split; [reflexivity|]. repeat rewrite <- app_assoc.
          eexists; (split; [reflexivity|]); reflexivity.
      - split; [reflexivity|]. repeat rewrite <- app_assoc.
        eexists; (split; [reflexivity|]); reflexivity. }
  all: destruct (image_analysis _ _ _ _ _ _) as [ex|id]; simpl;
    try destruct (is_Exception ex); simpl; (split; [reflexivity|]);
    repeat rewrite <- app_assoc; eexists; (split; [reflexivity|]); reflexivity.
Qed.

(** An exception leaves an iteration of the loop only if it is not an
    instance of [Exception]. *)
Lemma body_raises r push_registry user password n w e :
  fst (body r push_registry user password n w) = Raise e -> is_Exception e = false.
Proof.
  unfold submitter_body, bind, log, emit. simpl.
  destruct (do_analyze_image _ _ _ _ _ _ _) as [[id|ex] w']; simpl; [discriminate|].
  destruct (is_Exception ex) eqn:E; simpl; [discriminate|].
  intros H; injection H as <-. exact E.
Qed.


(** X12. A worker takes references from the head of the queue only, at
    most one per iteration, and puts nothing on it: what it leaves is the
    queue it found less its first references. *)
Theorem worker_consumes_from_the_head fuel push_registry user password n w :
  exists k,
    k <= fuel /\
    queue (snd (_submitter skopeo run_command image_analysis fuel push_registry user
                           password n w))
    = skipn k (queue w).
Proof.
  revert w; induction fuel as [|fuel IH]; intros w; simpl.
  - exists 0. auto.
  - destruct (queue w) as [|r rest] eqn:Eq.
    + exists 0. simpl. split; [lia | now rewrite Eq].
    + pose proof (body_handled r push_registry user password n
                    (mkWorld rest (trace w) (tick w))) as [Hq _].
      destruct (body r push_registry user password n (mkWorld rest (trace w) (tick w)))
        as [[u|ex] w'] eqn:E; simpl in Hq.
      * destruct (IH w') as [k [Hk Hs]]. exists (S k). split; [lia|].
        rewrite Hs, Hq. reflexivity.
      * exists 1. split; [lia|]. simpl. exact Hq.
Qed.

(** With collaborators that raise instances of [Exception] only, a
    worker with fuel for the whole queue takes every reference in hand,
    in queue order, and then waits in [queue.get()]. *)
Lemma submitter_handles fuel push_registry user password n w :
  raise_exceptions_only run_command image_analysis ->
  List.length (queue w) < fuel ->
  let w' := snd (submitter fuel push_registry user password n w) in
  fst (submitter fuel push_registry user password n w) = Blocked /\
  queue w' = [] /\
  handled (events_since w w') = queue w.
Proof.
  intros Henv. revert w; induction fuel as [|fuel IH]; intros w Hlen; [lia|].
  cbn [_submitter]. destruct (queue w) as [|r rest] eqn:Eq.
  - simpl. rewrite Eq. unfold events_since. rewrite skipn_all. auto.
  - pose proof (body_returns skopeo run_command image_analysis r push_registry user
                  password n (mkWorld rest (trace w) (tick w)) Henv) as Hret.
    pose proof (body_handled r push_registry user password n
                  (mkWorld rest (trace w) (tick w))) as [Hq [evs [Ht Hh]]].
    destruct (body r push_registry user password n (mkWorld rest (trace w) (tick w)))
      as [[u|ex] w1] eqn:E; simpl in Hret, Hq, Ht; [|discriminate].
    destruct (IH w1) as [H1 [H2 H3]]; [rewrite Hq; simpl in Hlen; lia|].
    cbv zeta in *. split; [exact H1 | split; [exact H2|]].
    destruct (submitter_extends skopeo run_command image_analysis fuel push_registry user
                password n w1) as [evs' Ht'].
    unfold events_since in *. rewrite Ht' in *. rewrite skipn_app_length in H3.
    rewrite Ht, <- app_assoc, skipn_app_length, handled_app, Hh, H3, Hq. reflexivity.
Qed.

(** X13. With collaborators that raise instances of [Exception] only, a
    worker left alone with the queue takes every reference in hand
    exactly once, in queue order, whatever fails on the way, and then
    waits in [queue.get()] on the empty queue. *)
Theorem worker_handles_queue_in_order fuel push_registry user password n w :
  raise_exceptions_only run_command image_analysis ->
  List.length (queue w) < fuel ->
  fst (submitter fuel push_registry user password n w) = Blocked /\
  queue (snd (submitter fuel push_registry user password n w)) = [] /\
  handled (events_since w (snd (submitter fuel push_registry user password n w))) = queue w.
Proof. intros Henv Hlen. now apply submitter_handles. Qed.

(** X14. Producers and worker compose: after the existing-image producer
    and the event producer have run, a worker takes in hand what was on
    the queue before, then one reference per tag of the image streams,
    then the output reference of every complete build, and nothing
    else. *)
Theorem pipeline_handles_what_producers_found items events fuel push_registry user password n w :
  raise_exceptions_only run_command image_analysis ->
  let w1 := snd (_existing_producer items w) in
  let w2 := snd (_event_producer events w1) in
  List.length (queue w2) < fuel ->
  fst (submitter fuel push_registry user password n w2) = Blocked /\
  queue (snd (submitter fuel push_registry user password n w2)) = [] /\
  handled (events_since w2 (snd (submitter fuel push_registry user password n w2)))
  = (queue w ++ existing_references items
     ++ map status_outputDockerImageReference (filter is_complete events))%list.
Proof.
  intros Henv w1 w2 Hlen.
  destruct (submitter_handles fuel push_registry user password n w2 Henv Hlen)
    as [H1 [H2 H3]].
  split; [exact H1 | split; [exact H2|]]. rewrite H3.
  unfold w2, w1. rewrite existing_producer_result. simpl.
  rewrite event_producer_result. simpl. now rewrite <- app_assoc.
Qed.

End WorkerMore.

Lemma run_fails_raises_exceptions : raise_exceptions_only run_fails analysis_ok.
Proof.
  split.
  - intros t cmd e H. injection H as <-. reflexivity.
  - intros t image user password verify_tls nowait e H. discriminate H.
Defined.

(** X5 at two namespaces of one registry. *)
Lemma push_image_keeps_last_segment_only_witness :
  PyStr.has_char "/" "app:1" = false /\
  fst (_push_image "skopeo" run_ok ("reg/ns1" ++ "/" ++ "app:1") "quay.io/org" None (Some "pw")
                   true true world0) = Ret "quay.io/org/app:1" /\
  fst (_push_image "skopeo" run_ok ("reg/ns2" ++ "/" ++ "app:1") "quay.io/org" None (Some "pw")
                   true true world0) = Ret "quay.io/org/app:1" /\
  "quay.io/org/app:1" = "quay.io/org" ++ "/" ++ "app:1".
Proof.
  split; [reflexivity | split; [reflexivity | split; [reflexivity|]]].
  exact (proj1 (push_image_keeps_last_segment_only "skopeo" run_ok "reg/ns1" "reg/ns2" "app:1"
                  "quay.io/org" None None (Some "pw") (Some "pw") true true true true
                  world0 world0 "quay.io/org/app:1" "quay.io/org/app:1"
                  eq_refl eq_refl eq_refl)).
Defined.

(** X6 at no user and two passwords. *)
Lemma password_without_user_is_not_in_command_witness :
  PyStr.truthy None = false /\
  commands (new_events (_push_image "skopeo" run_ok "reg/ns/app:1" "quay.io/org" None
                                    (Some "one") true true) world0)
  = commands (new_events (_push_image "skopeo" run_ok "reg/ns/app:1" "quay.io/org" None
                                      (Some "two") true true) world0).
Proof.
  split; [reflexivity|].
  exact (password_without_user_is_not_in_command "skopeo" run_ok "reg/ns/app:1" "quay.io/org"
           None "one" "two" true true world0 eq_refl).
Defined.

(** X7 at a password that is given without a user. *)
Lemma log_shows_command_without_password_witness :
  "pw" <> "" /\
  PyStr.contains "pw" "skopeo copy docker://reg/ns/app:1 docker://quay.io/org/app:1" = false /\
  In (Log DEBUG "Running: %s"
          [VStr "skopeo copy docker://reg/ns/app:1 docker://quay.io/org/app:1"])
     (new_events (_push_image "skopeo" run_ok "reg/ns/app:1" "quay.io/org" None (Some "pw")
                              true true) world0).
Proof.
  assert ("pw" <> "") as Hp by discriminate.
  assert (In (Log DEBUG "Running: %s" [VStr (PyStr.replace "pw" "***"
                "skopeo copy docker://reg/ns/app:1 docker://quay.io/org/app:1")])
             (new_events (_push_image "skopeo" run_ok "reg/ns/app:1" "quay.io/org" None
                                      (Some "pw") true true) world0)) as Hs
      by (vm_compute; right; right; left; reflexivity).
  assert (In "skopeo copy docker://reg/ns/app:1 docker://quay.io/org/app:1"
             (commands (new_events (_push_image "skopeo" run_ok "reg/ns/app:1" "quay.io/org"
                                                None (Some "pw") true true) world0))) as Hc
      by (vm_compute; left; reflexivity).
  split; [exact Hp | split; [reflexivity|]].
  rewrite <- (log_shows_command_without_password "skopeo" run_ok "reg/ns/app:1" "quay.io/org"
                None "pw" true true world0 _ _ Hp Hs Hc eq_refl) at 1.
  exact Hs.
Defined.

(** X8 at a relocated reference. *)
Lemma submission_carries_credentials_witness :
  In (ImageAnalysis "quay.io/org/app:1" (Some "bot") (Some "pw") false true)
     (new_events (_do_analyze_image "skopeo" run_ok analysis_ok "reg/ns/app:1"
                                    (Some "quay.io/org") (Some "bot") (Some "pw") true false)
                 world0) /\
  Some "bot" = Some "bot" /\ Some "pw" = Some "pw" /\ false = false /\ true = true.
Proof.
  assert (In (ImageAnalysis "quay.io/org/app:1" (Some "bot") (Some "pw") false true)
             (new_events (_do_analyze_image "skopeo" run_ok analysis_ok "reg/ns/app:1"
                                            (Some "quay.io/org") (Some "bot") (Some "pw")
                                            true false) world0)) as H
      by (vm_compute; do 9 (try (left; reflexivity); right); contradiction).
  split; [exact H|].
  exact (submission_carries_credentials "skopeo" run_ok analysis_ok "reg/ns/app:1"
           (Some "quay.io/org") (Some "bot") (Some "pw") true false world0 _ _ _ _ _ H).
Defined.

(** X9 at the empty string as push registry. *)
Lemma no_push_registry_no_relocation_witness :
  PyStr.truthy (Some "") = false /\
  relocations (new_events (_do_analyze_image "skopeo" run_ok analysis_ok "reg/ns/app:1"
                                             (Some "") None None true true) world0) = [] /\
  fst (_do_analyze_image "skopeo" run_ok analysis_ok "reg/ns/app:1" (Some "") None None
                         true true world0) = Ret "analysis-1".
Proof.
  split; [reflexivity|].
  pose proof (no_push_registry_no_relocation "skopeo" run_ok analysis_ok "reg/ns/app:1"
                (Some "") None None true true world0 eq_refl) as [H1 [_ H3]].
  split; [exact H1 | exact H3].
Defined.

(** X10 at a copy that returns. *)
Lemma submission_follows_successful_copy_witness :
  PyStr.truthy (Some "quay.io/org") = true /\
  submitted (new_events (_do_analyze_image "skopeo" run_ok analysis_ok "reg/ns/app:1"
                                           (Some "quay.io/org") None (Some "pw") true true)
                        world0) <> [] /\
  exists cmd command,
    commands (new_events (_do_analyze_image "skopeo" run_ok analysis_ok "reg/ns/app:1"
                                            (Some "quay.io/org") None (Some "pw") true true)
                         world0) = [cmd] /\
    run_ok 0 cmd = inr command.
Proof.
  assert (submitted (new_events (_do_analyze_image "skopeo" run_ok analysis_ok "reg/ns/app:1"
                                                   (Some "quay.io/org") None (Some "pw")
                                                   true true) world0) <> []) as H
      by (vm_compute; discriminate).
  split; [reflexivity | split; [exact H|]].
  exact (submission_follows_successful_copy "skopeo" run_ok analysis_ok "reg/ns/app:1"
           (Some "quay.io/org") None (Some "pw") true true world0 eq_refl H).
Defined.

(** An interrupted copy leaves the handler; a failed copy does not. *)
Example interrupt_leaves_the_handler :
  fst (submitter_body "skopeo" run_interrupted analysis_ok "reg/ns/app:1" (Some "quay.io/org")
                      None (Some "pw") false world0)
  = Raise KeyboardInterrupt /\
  fst (submitter_body "skopeo" run_fails analysis_ok "reg/ns/app:1" (Some "quay.io/org")
                      None (Some "pw") false world0)
  = Ret tt.
Proof. split; reflexivity. Qed.

(** X13 at two references whose copy fails. *)
Lemma worker_handles_queue_in_order_witness :
  raise_exceptions_only run_fails analysis_ok /\
  2 < 3 /\
  handled (events_since (mkWorld ["reg/ns/app:1"; "reg/ns/app:2"] [] 0)
             (snd (_submitter "skopeo" run_fails analysis_ok 3 (Some "quay.io/org") None
                              (Some "pw") false
                              (mkWorld ["reg/ns/app:1"; "reg/ns/app:2"] [] 0))))
  = ["reg/ns/app:1"; "reg/ns/app:2"].
Proof.
  assert (2 < 3) as Hlt by (apply Nat.lt_succ_diag_r).
  split; [exact run_fails_raises_exceptions | split; [exact Hlt|]].
  exact (proj2 (proj2 (worker_handles_queue_in_order "skopeo" run_fails analysis_ok 3
                         (Some "quay.io/org") None (Some "pw") false
                         (mkWorld ["reg/ns/app:1"; "reg/ns/app:2"] [] 0)
                         run_fails_raises_exceptions Hlt))).
Defined.

(** X14 at two image streams, one without tags, and three events, one
    complete. *)
Lemma pipeline_handles_what_producers_found_witness :
  raise_exceptions_only run_fails analysis_ok /\
  handled (events_since
             (snd (_event_producer three_events (snd (_existing_producer two_streams world0))))
             (snd (_submitter "skopeo" run_fails analysis_ok 4 None None None false
                     (snd (_event_producer three_events
                                           (snd (_existing_producer two_streams world0)))))))
  = ["reg/builds/app:1"; "reg/builds/app:latest"; "reg/builds/web:1"].
Proof.
  split; [exact run_fails_raises_exceptions|].
  assert (List.length
            (queue (snd (_event_producer three_events
                                         (snd (_existing_producer two_streams world0))))) < 4)
    as Hlt by (vm_compute; apply Nat.lt_succ_diag_r).
  exact (proj2 (proj2 (pipeline_handles_what_producers_found "skopeo" run_fails analysis_ok
                         two_streams three_events 4 None None None false world0
                         run_fails_raises_exceptions Hlt))).
Defined.

(** ** The supervisor, further *)

Section SupervisorMore.

Variable OpenShift_new : exn + string.
Variable is_alive : nat -> Z -> bool.
Variable pid : nat -> Z.

Local Abbreviation cli' := (cli OpenShift_new is_alive pid).
Local Abbreviation poll' := (poll is_alive).

(** The liveness loop changes the clock only, by one sleep of 5 seconds
    per poll that finds every process alive; it ends on [RuntimeError]
    only, at a poll where a process of the pool answers dead. *)
Lemma poll_frame fuel process_pool st :
  let r := poll' fuel process_pool st in
  started (snd r) = started st /\
  explicit_host (snd r) = explicit_host st /\
  tls_verify (snd r) = tls_verify st /\
  (exists k, k <= fuel /\ clock (snd r) = (clock st + 5 * Z.of_nat k)%Z /\
             (fst r = Running -> k = fuel) /\
             (forall e, fst r = Died e -> k < fuel)) /\
  (fst r = Running \/
   fst r = Died (RuntimeError "One of the processes failed") /\
   exists p, In p process_pool /\ is_alive p (clock (snd r)) = false).
Proof.
  revert st; induction fuel as [|fuel IH]; intros st; cbn [poll]; cbv zeta.
  - cbn [fst snd]. repeat split; auto. exists 0.
    repeat split; auto; [cbn; lia | discriminate].
  - destruct (existsb (fun process => negb (is_alive process (clock st))) process_pool) eqn:E.
    + cbn [fst snd]. repeat split; auto.
      * exists 0. repeat split; [lia | cbn; lia | discriminate | intros; lia].
      * right. split; [reflexivity|]. apply existsb_exists in E.
        destruct E as [p [Hin Hp]]. exists p. split; [exact Hin|].
        now destruct (is_alive p (clock st)).
    + destruct (IH (sleep 5 st)) as [H1 [H2 [H3 [[k [Hk [Hc [Hr Hd]]]] H5]]]].
      unfold sleep in H1, H2, H3, Hc at 2. cbn [started explicit_host tls_verify clock] in *.
      split; [exact H1 | split; [exact H2 | split; [exact H3 | split; [|exact H5]]]].
      exists (S k). split; [lia | split; [rewrite Hc; lia | split]].
      * intros Hrun. now rewrite (Hr Hrun).
      * intros e He. specialize (Hd e He). lia.
Qed.

(** X15. Once the cluster client is built and the options do not
    conflict, [cli] has started, in this order: the existing-image
    producer when [--analyze-existing] is set, one event producer, and
    [workers_count] workers (none for a count of zero or less), every
    worker with the push registry, the registry user and the registry TLS
    flag of the options, and with the cluster token as password under
    [--pass-token], the given password otherwise. The poll starts none. *)
Theorem cli_starts_the_pipeline o token fuel :
  OpenShift_new = inr token ->
  conflict o = false ->
  started (snd (cli' o fuel))
  = ((if analyze_existing o then [Existing_producer (build_watcher_namespace o)] else [])
     ++ Event_producer (build_watcher_namespace o)
     :: repeat (Submitter (push_registry o) (registry_user o)
                          (if pass_token o then Some token else registry_password o)
                          (no_registry_tls_verify o))
               (Z.to_nat (workers_count o)))%list.
Proof.
  intros Hos Hc.
  destruct (cli_reaches_poll OpenShift_new is_alive pid o token Hos Hc) as [st [Hcli [_ Hst]]].
  rewrite Hcli.
  destruct (poll_frame fuel (seq (worker_position o 0) (Z.to_nat (workers_count o))) st)
    as [H _].
  now rewrite H.
Qed.

(** X16. When the cluster client cannot be built, [cli] ends with the
    client's error, after it has set the API host and
    [tls_verify = not no_tls_verify] on the configuration; no event
    producer and no worker is started, but the existing-image producer is
    when [--analyze-existing] is set. *)
Theorem cli_without_cluster_client o fuel e :
  OpenShift_new = inl e ->
  fst (cli OpenShift_new is_alive pid o fuel) = Died e /\
  started (snd (cli OpenShift_new is_alive pid o fuel))
  = (if analyze_existing o then [Existing_producer (build_watcher_namespace o)] else []) /\
  explicit_host (snd (cli OpenShift_new is_alive pid o fuel)) = Some (thoth_api_host o) /\
  tls_verify (snd (cli OpenShift_new is_alive pid o fuel)) = Some (negb (no_tls_verify o)).
Proof.
  intros Hos. unfold cli. rewrite Hos.
  destruct (verbose o), (analyze_existing o); simpl; auto.
Qed.

(** X17. With a worker count of zero or less [cli] starts no worker and
    its liveness loop never fails: after any number of polls it is still
    polling, 5 seconds per poll. *)
Theorem cli_without_workers_polls_forever o token fuel :
  OpenShift_new = inr token ->
  conflict o = false ->
  (workers_count o <= 0)%Z ->
  fst (cli' o fuel) = Running /\
  clock (snd (cli' o fuel)) = (5 * Z.of_nat fuel)%Z /\
  existsb is_submitter (started (snd (cli' o fuel))) = false.
Proof.
  intros Hos Hc Hw.
  destruct (cli_reaches_poll OpenShift_new is_alive pid o token Hos Hc)
    as [st [Hcli [Hclock Hst]]].
  rewrite Hcli.
  assert (Z.to_nat (workers_count o) = 0) as Hn by lia.
  rewrite Hn in *. cbn [seq repeat] in *.
  destruct (poll_frame fuel [] st) as [H1 [_ [_ [[k [Hk [Hck [Hr _]]]] H5]]]].
  assert (fst (poll' fuel [] st) = Running) as Hrun.
  { destruct H5 as [H5 | [_ [p [[] _]]]]. exact H5. }
  split; [exact Hrun | split].
  - rewrite Hck, Hclock, (Hr Hrun). lia.
  - rewrite H1, Hst. destruct (analyze_existing o); reflexivity.
Qed.


Lemma start_workers_config n t process_pool st :
  explicit_host (snd (start_workers pid n t process_pool st)) = explicit_host st /\
  tls_verify (snd (start_workers pid n t process_pool st)) = tls_verify st.
Proof.
  revert process_pool st; induction n as [|n IH]; intros process_pool st; simpl; [auto|].
  match goal with
  | |- context [start_workers pid n t ?p ?s] => destruct (IH p s) as [H1 H2]
  end.
  rewrite H1, H2. auto.
Qed.

(** The liveness loop reads the clock of the state only. *)
Lemma poll_by_clock fuel process_pool st st' :
  clock st = clock st' ->
  fst (poll' fuel process_pool st) = fst (poll' fuel process_pool st') /\
  clock (snd (poll' fuel process_pool st)) = clock (snd (poll' fuel process_pool st')).
Proof.
  revert st st'; induction fuel as [|fuel IH]; intros st st' Hc; cbn [poll]; [auto|].
  rewrite Hc.
  destruct (existsb (fun process => negb (is_alive process (clock st'))) process_pool);
    [auto|].
  apply IH. unfold sleep. cbn [clock]. now rewrite Hc.
Qed.

(** In every outcome of [cli] the API host and [tls_verify] have been
    set on the configuration, from [--thoth-api-host] and
    [--no-tls-verify]. *)
Lemma cli_sets_configuration o fuel :
  explicit_host (snd (cli' o fuel)) = Some (thoth_api_host o) /\
  tls_verify (snd (cli' o fuel)) = Some (negb (no_tls_verify o)).
Proof.
  unfold cli. destruct OpenShift_new as [e|token]; [cbn; auto|].
  destruct (pass_token o); [destruct (PyStr.truthy (registry_password o)); [cbn; auto|]|].
  all: split.
  all: cbv zeta; unfold start; cbv beta iota zeta;
    match goal with
    | |- context [start_workers pid ?n ?t ?p ?s] =>
        destruct (start_workers_config n t p s) as [H1 H2];
        destruct (start_workers pid n t p s) as [process_pool st]
    end;
    cbv beta iota zeta; cbn [snd] in H1, H2;
    destruct (poll_frame fuel process_pool st) as [_ [H3 [H4 _]]];
    rewrite ?H3, ?H4, ?H1, ?H2; reflexivity.
Qed.

(** X19. [--no-tls-verify] and [--verbose] reach the configuration of
    the API client and the logger only: with other values of the two
    flags [cli] ends or goes on in the same way, at the same time, with
    the same processes started, and [tls_verify] of the configuration is
    the negation of [--no-tls-verify]. *)
Theorem cli_api_flags_do_not_reach_the_pipeline o no_tls verb fuel :
  fst (cli' (with_api_flags no_tls verb o) fuel) = fst (cli' o fuel) /\
  started (snd (cli' (with_api_flags no_tls verb o) fuel)) = started (snd (cli' o fuel)) /\
  clock (snd (cli' (with_api_flags no_tls verb o) fuel)) = clock (snd (cli' o fuel)) /\
  tls_verify (snd (cli' (with_api_flags no_tls verb o) fuel)) = Some (negb no_tls).
Proof.
  split; [|split; [|split; [|apply (cli_sets_configuration (with_api_flags no_tls verb o))]]].
  all: destruct OpenShift_new as [e|token].
  all: try (unfold cli;
            cbn [with_api_flags verbose analyze_existing build_watcher_namespace
                   thoth_api_host no_tls_verify];
            destruct verb, (verbose o), (analyze_existing o); reflexivity).
  all: destruct (conflict o) eqn:Hc.
  all: try (unfold conflict in Hc; apply andb_true_iff in Hc; destruct Hc as [Hp Hpw];
            unfold cli;
            cbn [with_api_flags verbose analyze_existing build_watcher_namespace
                   thoth_api_host no_tls_verify pass_token registry_password];
            rewrite Hp, Hpw;
            destruct verb, (verbose o), (analyze_existing o); reflexivity).
  all: destruct (cli_reaches_poll (inr token) is_alive pid o token eq_refl Hc)
    as [st [Hcli [Hclock Hst]]];
    destruct (cli_reaches_poll (inr token) is_alive pid (with_api_flags no_tls verb o)
                token eq_refl Hc) as [st' [Hcli' [Hclock' Hst']]];
    rewrite Hcli, Hcli';
    change (worker_position (with_api_flags no_tls verb o) 0) with (worker_position o 0);
    change (workers_count (with_api_flags no_tls verb o)) with (workers_count o);
    destruct (poll_by_clock fuel (seq (worker_position o 0) (Z.to_nat (workers_count o)))
                st' st) as [Hf Hk]; [congruence|].
  - exact Hf.
  - destruct (poll_frame fuel (seq (worker_position o 0) (Z.to_nat (workers_count o))) st)
      as [H _].
    destruct (poll_frame fuel (seq (worker_position o 0) (Z.to_nat (workers_count o))) st')
      as [H' _].
    rewrite H, H', Hst, Hst'. reflexivity.
  - exact Hk.
Qed.

End SupervisorMore.

(** X15 at [--pass-token], [--analyze-existing] and two workers. *)
Lemma cli_starts_the_pipeline_witness :
  conflict token_options = false /\
  started (snd (cli (inr "token") first_is_dead pid0 token_options 2))
  = [Existing_producer "builds"; Event_producer "builds";
     Submitter (Some "quay.io/org") (Some "bot") (Some "token") true;
     Submitter (Some "quay.io/org") (Some "bot") (Some "token") true].
Proof.
  split; [reflexivity|].
  exact (cli_starts_the_pipeline (inr "token") first_is_dead pid0 token_options "token" 2
           eq_refl eq_refl).
Defined.

(** X16 at a cluster that cannot be reached. *)
Lemma cli_without_cluster_client_witness :
  fst (cli (inl (ExternalError "no cluster")) first_is_dead pid0 token_options 2)
  = Died (ExternalError "no cluster") /\
  started (snd (cli (inl (ExternalError "no cluster")) first_is_dead pid0 token_options 2))
  = [Existing_producer "builds"].
Proof.
  pose proof (cli_without_cluster_client (inl (ExternalError "no cluster")) first_is_dead pid0
                token_options 2 (ExternalError "no cluster") eq_refl) as [H1 [H2 _]].
  split; [exact H1 | exact H2].
Defined.

(** X17 at a worker count of zero, after three polls. *)
Lemma cli_without_workers_polls_forever_witness :
  conflict no_worker_options = false /\
  (workers_count no_worker_options <= 0)%Z /\
  fst (cli (inr "token") first_is_dead pid0 no_worker_options 3) = Running /\
  clock (snd (cli (inr "token") first_is_dead pid0 no_worker_options 3)) = 15%Z.
Proof.
  assert (workers_count no_worker_options <= 0)%Z as Hw by (intros H; discriminate H).
  split; [reflexivity | split; [exact Hw|]].
  pose proof (cli_without_workers_polls_forever (inr "token") first_is_dead pid0
                no_worker_options "token" 3 eq_refl eq_refl Hw) as [H1 [H2 _]].
  split; [exact H1 | exact H2].
Defined.


(** ** The worker pool, further *)

Module PoolMore.
Import Pool.

(** With one worker a step keeps the references in their order: those
    attempted, then the one in hand, then the queue, then those still to
    put. *)
Lemma step_single_worker a s s' :
  List.length (slots s) = 1 ->
  step a s = Some s' ->
  everything s' = everything s /\ List.length (slots s') = 1.
Proof.
  intros Hl. destruct (slots s) as [|w [|w2 ws]] eqn:Es; try discriminate.
  unfold everything, held. destruct a as [|i|i]; simpl; rewrite ?Es.
  - destruct (to_put s) as [|r rest]; [discriminate|].
    intros H; injection H as <-; simpl. rewrite ?Es. split; [|reflexivity].
    simpl. now rewrite <- !app_assoc.
  - destruct i as [|i]; simpl; [|destruct i; discriminate].
    destruct w as [|r0]; [|discriminate].
    destruct (shared s) as [|r rest]; [discriminate|].
    intros H; injection H as <-; simpl. auto.
  - destruct i as [|i]; simpl; [|destruct i; discriminate].
    destruct w as [|r]; [discriminate|].
    intros H; injection H as <-; simpl. split; [|reflexivity].
    now rewrite map_app, <- app_assoc.
Qed.

Lemma run_single_worker sched s s' :
  List.length (slots s) = 1 ->
  run sched s = Some s' ->
  everything s' = everything s.
Proof.
  revert s; induction sched as [|a sched IH]; intros s Hl; simpl.
  - intros H; injection H as <-. reflexivity.
  - destruct (step a s) as [s1|] eqn:E; [|discriminate].
    destruct (step_single_worker a s s1 Hl E) as [He Hl1].
    intros H. rewrite (IH s1 Hl1 H). exact He.
Qed.

(** X20. With a single worker, references are attempted in the order in
    which they were put on the queue: at every moment the references
    attempted so far are the first ones of the sequence, in order, and
    once no step is left they are the whole sequence. *)
Theorem single_worker_attempts_in_queue_order refs sched s :
  run sched (init 1 refs) = Some s ->
  refs = (map snd (attempts s) ++ held s ++ shared s ++ to_put s)%list /\
  ((forall a, step a s = None) -> map snd (attempts s) = refs).
Proof.
  intros Hrun.
  assert (everything s = refs) as He
      by (apply (run_single_worker sched (init 1 refs) s eq_refl Hrun)).
  split; [now rewrite <- He|].
  intros Hstuck.
  destruct (PoolFacts.run_conserves sched (init 1 refs) s Hrun) as [_ [_ Hl]].
  assert (0 < List.length (slots s)) as Hn by (rewrite Hl; simpl; lia).
  assert (to_put s = [] /\ shared s = [] /\ held s = []) as [Ep [Es Eh]].
  { destruct (to_put s) as [|r rest] eqn:Ep.
    - destruct (shared s) as [|q qs] eqn:Es.
      + destruct (held s) as [|h hs] eqn:Eh; [auto|].
        destruct (PoolFacts.progress s Hn) as [a [s' Hs']]; [right; right; congruence|].
        rewrite Hstuck in Hs'. discriminate.
      + destruct (PoolFacts.progress s Hn) as [a [s' Hs']]; [right; left; congruence|].
        rewrite Hstuck in Hs'. discriminate.
    - destruct (PoolFacts.progress s Hn) as [a [s' Hs']]; [left; congruence|].
      rewrite Hstuck in Hs'. discriminate. }
  unfold everything in He. now rewrite Ep, Es, Eh, !app_nil_r in He.
Qed.

End PoolMore.

(** X20 at three references, the third put after the first was
    attempted. *)
Lemma single_worker_attempts_in_queue_order_witness :
  Pool.run [Pool.Put; Pool.Put; Pool.Get 0; Pool.Analyze 0; Pool.Put; Pool.Get 0]
           (Pool.init 1 ["reg/a:1"; "reg/b:1"; "reg/c:1"])
  = Some (Pool.mkSys [] ["reg/c:1"] [Pool.Holding "reg/b:1"] [(0, "reg/a:1")]) /\
  ["reg/a:1"; "reg/b:1"; "reg/c:1"] = (["reg/a:1"] ++ ["reg/b:1"] ++ ["reg/c:1"] ++ [])%list.
Proof.
  split; [reflexivity|].
  exact (proj1 (PoolMore.single_worker_attempts_in_queue_order
                  ["reg/a:1"; "reg/b:1"; "reg/c:1"]
                  [Pool.Put; Pool.Put; Pool.Get 0; Pool.Analyze 0; Pool.Put; Pool.Get 0]
                  _ eq_refl)).
Defined.

(** ** The worker at its edges *)

Lemma string_length_append (a b : string) :
  String.length (a ++ b) = String.length a + String.length b.
Proof.
  induction a as [|c a IH]; [reflexivity|].
  change (String c a ++ b) with (String c (a ++ b)). cbn [String.length]. now rewrite IH.
Qed.

(** [s.replace("", new)] puts [new] before every character of [s] and
    after the last. *)
Lemma replace_empty_length (new s : string) :
  String.length (PyStr.replace_empty new s)
  = String.length s * S (String.length new) + String.length new.
Proof.
  induction s as [|c s IH]; cbn [PyStr.replace_empty String.length]; [reflexivity|].
  rewrite string_length_append. cbn [String.length]. rewrite IH. lia.
Qed.

Section WorkerEdge.

Variable skopeo : string.
Variable run_command : nat -> string -> exn + (string * string).
Variable image_analysis :
  nat -> string -> option string -> option string -> bool -> bool -> exn + string.

Local Abbreviation push_image := (_push_image skopeo run_command).
Local Abbreviation body := (submitter_body skopeo run_command image_analysis).

(** X21. With the empty string as password the copy command is run
    without the password, as for no password, but the text logged for a
    command of ASCII characters is the command with the mask before
    every character and after the last: four times as long as the
    command, and three more. *)
Theorem empty_password_masks_every_character image push_registry user src dst w shown cmd :
  In (Log DEBUG "Running: %s" [VStr shown])
     (new_events (push_image image push_registry user (Some "") src dst) w) ->
  In cmd (commands (new_events (push_image image push_registry user (Some "") src dst) w)) ->
  is_ascii_text cmd = true ->
  shown = PyStr.replace_empty "***" cmd /\
  String.length shown = 4 * String.length cmd + 3 /\
  (exists image_name,
      cmd = copy_command skopeo image push_registry image_name user None src dst).
Proof.
  unfold new_events. rewrite push_image_cases. cbv zeta.
  destruct (PyStr.rsplit_last "/" image) as [[a b]|]; cbn [fst snd trace].
  - destruct (run_command _ _); cbn [fst snd trace]; rewrite !skipn_app_length;
      cbn [commands In]; intros Hs Hc _; pick_event Hs; pick_event Hc; subst cmd;
      injection Hs as <-;
      (split; [reflexivity | split; [|exists b]]);
      try (unfold PyStr.replace; cbn [String.eqb]; rewrite replace_empty_length;
           cbn [String.length]; lia);
      unfold copy_command, copy_flags, if_truthy;
      (destruct user as [u|]; [destruct (u =? "")%string|]; reflexivity).
  - rewrite skipn_app_length. cbn [In]. intros Hs. pick_event Hs.
Qed.

(** X22. A worker never retries: for one reference taken in hand it runs
    at most one copy command and makes at most one submission, and these
    are the only calls it makes to its collaborators. *)
Theorem worker_never_retries r push_registry user password n w :
  let evs := new_events (body r push_registry user password n) w in
  List.length (commands evs) <= 1 /\
  List.length (submitted evs) <= 1 /\
  tick (snd (body r push_registry user password n w))
  = tick w + List.length (commands evs) + List.length (submitted evs).
Proof.
  run_py.
  destruct push_registry as [reg|]; [destruct (reg =? "")%string|]; simpl.
  2:{ destruct (PyStr.rsplit_last "/" r) as [[a b]|]; simpl.
      - destruct password as [pw|]; simpl.
        + destruct (run_command _ _) as [e|out]; simpl.
          * destruct (is_Exception e); simpl; new_trace; repeat split; lia.
          * destruct (image_analysis _ _ _ _ _ _) as [ex|id]; simpl;
              try destruct (is_Exception ex); simpl; new_trace; repeat split; lia.
        + new_trace; repeat split; lia.
      - new_trace; repeat split; lia. }
  all: destruct (image_analysis _ _ _ _ _ _) as [ex|id]; simpl;
    try destruct (is_Exception ex); simpl; new_trace; repeat split; lia.
Qed.

End WorkerEdge.

(** X21 at a user with the empty password. *)
Lemma empty_password_masks_every_character_witness :
  is_ascii_text "s copy --dest-creds=u docker://r/a docker://q/a" = true /\
  In (Log DEBUG "Running: %s" [VStr (PyStr.replace_empty "***" "s copy --dest-creds=u docker://r/a docker://q/a")])
     (new_events (_push_image "s" run_ok "r/a" "q" (Some "u") (Some "") true true) world0) /\
  In "s copy --dest-creds=u docker://r/a docker://q/a"
     (commands (new_events (_push_image "s" run_ok "r/a" "q" (Some "u") (Some "") true true)
                           world0)) /\
  String.length (PyStr.replace_empty "***" "s copy --dest-creds=u docker://r/a docker://q/a")
  = 4 * String.length "s copy --dest-creds=u docker://r/a docker://q/a" + 3.
Proof.
  assert (In (Log DEBUG "Running: %s"
                  [VStr (PyStr.replace_empty "***"
                           "s copy --dest-creds=u docker://r/a docker://q/a")])
             (new_events (_push_image "s" run_ok "r/a" "q" (Some "u") (Some "") true true)
                         world0)) as Hs
      by (vm_compute; right; right; left; reflexivity).
  assert (In "s copy --dest-creds=u docker://r/a docker://q/a"
             (commands (new_events (_push_image "s" run_ok "r/a" "q" (Some "u") (Some "")
                                                true true) world0))) as Hc
      by (vm_compute; left; reflexivity).
  split; [reflexivity | split; [exact Hs | split; [exact Hc|]]].
  exact (proj1 (proj2 (empty_password_masks_every_character "s" run_ok "r/a" "q" (Some "u")
                         true true world0 _ _ Hs Hc eq_refl))).
Defined.

(** ** The end of the process *)

Section SupervisorExit.

Variable OpenShift_new : exn + string.
Variable is_alive : nat -> Z -> bool.
Variable pid : nat -> Z.

(** Once the liveness loop has raised, more fuel changes nothing. *)
Lemma poll_died_stable fuel fuel' process_pool st e st' :
  poll is_alive fuel process_pool st = (Died e, st') ->
  fuel <= fuel' ->
  poll is_alive fuel' process_pool st = (Died e, st').
Proof.
  revert fuel' st; induction fuel as [|fuel IH]; intros fuel' st; cbn [poll];
    [discriminate|].
  intros H Hle. destruct fuel' as [|fuel']; [lia|]. cbn [poll].
  destruct (existsb (fun process => negb (is_alive process (clock st))) process_pool);
    [exact H|].
  apply IH; [exact H | lia].
Qed.

(** Once [cli] has died, more fuel changes nothing. *)
Lemma cli_died_stable o fuel fuel' e st' :
  cli OpenShift_new is_alive pid o fuel = (Died e, st') ->
  fuel <= fuel' ->
  cli OpenShift_new is_alive pid o fuel' = (Died e, st').
Proof.
  unfold cli. destruct OpenShift_new as [e0|token]; [auto|].
  destruct (pass_token o); [destruct (PyStr.truthy (registry_password o)); [auto|]|].
  all: cbv zeta; unfold start; cbv beta iota zeta;
    match goal with
    | |- context [start_workers pid ?n ?t ?p ?s] =>
        destruct (start_workers pid n t p s) as [process_pool st]
    end;
    apply poll_died_stable.
Qed.

End SupervisorExit.

(** C7, at a worker that dies at time 7 while the event producer lives
    on: [cli] finds the dead worker at the poll of time 10 and raises
    [RuntimeError], as it does with any more fuel; but the event
    producer, which [cli] started and never terminates, answers alive at
    every time, so the interpreter, which joins it at exit, never ends
    and reports no exit status. *)
Theorem C7_process_outlives_dead_worker :
  nth_error (started (snd (cli (inr "token") second_dies_at_7 pid0 sample_options 3))) 0
  = Some (Event_producer "builds") /\
  (forall t, second_dies_at_7 0 t = true) /\
  forall fuel,
    3 <= fuel ->
    fst (cli (inr "token") second_dies_at_7 pid0 sample_options fuel)
    = Died (RuntimeError "One of the processes failed") /\
    clock (snd (cli (inr "token") second_dies_at_7 pid0 sample_options fuel)) = 10%Z /\
    forall t,
      child_alive second_dies_at_7
                  (snd (cli (inr "token") second_dies_at_7 pid0 sample_options fuel)) t
      = true /\
      exit_status (fst (cli (inr "token") second_dies_at_7 pid0 sample_options fuel))
                  (child_alive second_dies_at_7
                     (snd (cli (inr "token") second_dies_at_7 pid0 sample_options fuel)) t)
      = None.
Proof.
  split; [reflexivity | split; [reflexivity|]]. intros fuel Hf.
  rewrite (cli_died_stable (inr "token") second_dies_at_7 pid0 sample_options 3 fuel
             (RuntimeError "One of the processes failed")
             (snd (cli (inr "token") second_dies_at_7 pid0 sample_options 3))
             eq_refl Hf).
  split; [reflexivity | split; [reflexivity|]].
  intros t. split; reflexivity.
Qed.
